(** * pyOSCeleton: the Point, Skeleton and OSCeleton classes of OSCeleton.py

    A shallow embedding of [OSCeleton.py] (Python 2) and the properties of
    its skeleton aggregator.

    - Python numbers are [PyNum.t]: unbounded [int]/[long] as [Z], [float] as
      the kernel's binary64 [float]; mixed arithmetic converts the integer
      operand to a float, as Python's coercion does.
    - Python dictionaries are [gmap]s (Python 2 dictionaries have no
      specified iteration order, nothing below depends on one).
    - Methods that mutate [self] or that can raise are written in a small
      state-and-exception monad [M]: the state survives a raised exception,
      as the attributes of a Python object do.
    - The attributes [users], [_users], [frames], [lostUsers] and
      [realWorld] of [OSCeleton] are the fields of one state record, the
      state of one [OSCeleton] object (the class statement creates the two
      dictionaries and the list once, and the callbacks mutate them in
      place).
    - The skeletons in [users] and in [_users] are distinct objects, and a
      promotion stores new dictionaries in the completed skeleton, so that
      dictionaries as values are enough: no two live objects share one.
    - The [print] statements of the callbacks write to the standard output
      and touch nothing else; they are left out.
    - The arguments of a message are taken as decoded: a user number is an
      integer, a joint label a string or an integer, a coordinate or a
      matrix value a number.

    Where the definitions come from in [OSCeleton.py]:
    - [Point.__eq__] 86-102, [Point.__add__] 104-117, [Point.__sub__]
      119-132, [Point.copy] 134-144, [Point.vals] 146-155,
      [Point.magnitude] 157-166, [Point.normalize] 168-183;
    - [Skeleton.__init__] 197-204, [Skeleton.__contains__] 206-214,
      [Skeleton.__setitem__] 216-218, [Skeleton.__getitem__] 220-222,
      [Skeleton.copy_joints] 224-229, [Skeleton.clear] 231-234;
    - [OSCeleton.initial] 250-254, [OSCeleton.new_user_callback] 271-274,
      [OSCeleton.lost_user_callback] 276-284,
      [OSCeleton.do_nothing_callback] 286-287,
      [OSCeleton.new_skeleton_callback] 289-291,
      [OSCeleton.joint_callback] 293-315 (with [OSCeleton.add_new_user]
      296-297, [OSCeleton.start_new_frame] 301-306 and [OSCeleton.to_mm]
      309-310), [OSCeleton.orient_callback] 317-325,
      [OSCeleton.get_users] 327-335, [OSCeleton.get_new_skeletons]
      337-349. *)

From Stdlib Require Import ZArith Floats DecimalString DecimalZ Lia.
From stdpp Require Import gmap strings list fin_maps.

(** Decimal float literals below are the shortest ones that read back as
    the binary64 value meant, as Python prints them. *)
Set Warnings "-inexact-float".

(** ** Exceptions and the state-and-exception monad *)

Inductive exn : Set :=
  | KeyError
  | ZeroDivisionError
  | OverflowError
  | ValueError.

Definition exn_eqb (a b : exn) : bool :=
  match a, b with
  | KeyError, KeyError
  | ZeroDivisionError, ZeroDivisionError
  | OverflowError, OverflowError
  | ValueError, ValueError => true
  | _, _ => false
  end.

Inductive result (A : Type) : Type :=
  | Ok (a : A)
  | Raise (e : exn).
Arguments Ok {A} a.
Arguments Raise {A} e.

Definition result_bind {A B} (r : result A) (k : A → result B) : result B :=
  match r with
  | Ok a => k a
  | Raise e => Raise e
  end.

Section StateExn.
Context {S : Type}.

Definition M (A : Type) : Type := S → result A * S.

Definition ret {A} (a : A) : M A := λ s, (Ok a, s).

Definition bind {A B} (m : M A) (k : A → M B) : M B :=
  λ s, match m s with
       | (Ok a, s') => k a s'
       | (Raise e, s') => (Raise e, s')
       end.

Definition raise {A} (e : exn) : M A := λ s, (Raise e, s).

Definition get : M S := λ s, (Ok s, s).

Definition modify (f : S → S) : M unit := λ s, (Ok tt, f s).

(** A pure computation that can raise, run inside a method. *)
Definition lift {A} (r : result A) : M A := λ s, (r, s).

(** [try: body except e: handler] *)
Definition try_except {A} (body : M A) (e : exn) (handler : M A) : M A :=
  λ s, match body s with
       | (Raise e', s') =>
           if exn_eqb e e' then handler s' else (Raise e', s')
       | r => r
       end.

(** The state a call leaves behind, whether it returned or raised. *)
Definition exec {A} (m : M A) (s : S) : S := (m s).2.

(** What a call returned or raised. *)
Definition outcome {A} (m : M A) (s : S) : result A := (m s).1.
End StateExn.
Arguments M : clear implicits.

Declare Scope monad_scope.
Delimit Scope monad_scope with M.
Notation "x <- m ;; k" := (bind m (λ x, k))
  (at level 100, m at next level, k at level 200, right associativity)
  : monad_scope.
Notation "m ;; k" := (bind m (λ _, k))
  (at level 100, k at level 200, right associativity) : monad_scope.
Notation "x <~ r ;; k" := (result_bind r (λ x, k))
  (at level 100, r at next level, k at level 200, right associativity)
  : monad_scope.

(** ** Python numbers *)

Module PyNum.

Inductive t : Set :=
  | PyInt (n : Z)
  | PyFloat (f : float).

(** [float(n)] for an integer [n]: the nearest binary64 value, ties to
    even; [OverflowError] when it is out of the range of a float. *)
Definition float_of_int (n : Z) : result float :=
  let f := SF2Prim (binary_normalize prec emax n 0 false) in
  if PrimFloat.is_infinity f then Raise OverflowError else Ok f.

(** The coercion of a binary operator: the operand as a float. *)
Definition as_float (a : t) : result float :=
  match a with
  | PyInt n => float_of_int n
  | PyFloat f => Ok f
  end.

(** [a op b] for [+], [-] and [*]: exact on two integers, IEEE 754 on
    floats (they do not raise on overflow, they give an infinity). *)
Definition arith (opZ : Z → Z → Z) (opF : float → float → float)
    (a b : t) : result t :=
  match a, b with
  | PyInt m, PyInt n => Ok (PyInt (opZ m n))
  | _, _ =>
      (x <~ as_float a ;; y <~ as_float b ;; Ok (PyFloat (opF x y)))%M
  end.

Definition add : t → t → result t := arith Z.add PrimFloat.add.
Definition sub : t → t → result t := arith Z.sub PrimFloat.sub.
Definition mul : t → t → result t := arith Z.mul PrimFloat.mul.

(** Unary minus. *)
Definition neg (a : t) : t :=
  match a with
  | PyInt n => PyInt (- n)
  | PyFloat f => PyFloat (- f)
  end.

(** [a / b] when [b] is a float (classic division of Python 2 is the true
    division then): both operands are coerced first, a zero divisor raises
    [ZeroDivisionError]. *)
Definition div_float (a : t) (b : float) : result float :=
  (x <~ as_float a ;;
   if PrimFloat.eqb b 0 then Raise ZeroDivisionError
   else Ok (x / b)%float)%M.

(** [a ** 2]. Exact on an integer. On a float, [float_pow] returns nan for
    nan, +inf for an infinity, +0.0 for a zero, else the C library's
    [pow(|a|, 2.0)], taken here as the correctly rounded square, and raises
    [OverflowError] when a finite operand overflows to an infinity. All
    of these agree with the IEEE product [a * a]. *)
Definition sqr (a : t) : result t :=
  match a with
  | PyInt n => Ok (PyInt (n * n))
  | PyFloat f =>
      let r := (f * f)%float in
      if PrimFloat.is_infinity r && negb (PrimFloat.is_infinity f)
      then Raise OverflowError
      else Ok (PyFloat r)
  end.

(** [math.sqrt(a)]: the argument is coerced to a float; a nan result from
    an argument that is not nan is a [ValueError] (math domain error). *)
Definition sqrt (a : t) : result float :=
  (x <~ as_float a ;;
   let r := PrimFloat.sqrt x in
   if PrimFloat.is_nan r && negb (PrimFloat.is_nan x)
   then Raise ValueError
   else Ok r)%M.

(** [n == f] for an integer and a float: Python compares the exact
    mathematical values, without rounding the integer. *)
Definition int_eq_float (n : Z) (f : float) : bool :=
  match Prim2SF f with
  | S754_zero _ => Z.eqb n 0
  | S754_finite s m e =>
      let v := if s then Z.neg m else Z.pos m in
      if (0 <=? e)%Z then Z.eqb n (v * 2 ^ e)
      else Z.eqb (n * 2 ^ (- e)) v
  | S754_infinity _ | S754_nan => false
  end.

(** [a == b] *)
Definition eqb (a b : t) : bool :=
  match a, b with
  | PyInt m, PyInt n => Z.eqb m n
  | PyFloat x, PyFloat y => PrimFloat.eqb x y
  | PyInt n, PyFloat f | PyFloat f, PyInt n => int_eq_float n f
  end.

End PyNum.
Import PyNum(PyInt, PyFloat).

(** ** class Point *)

Module Point.

Record t : Set := __init__ { x : PyNum.t; y : PyNum.t; z : PyNum.t }.

Definition set_x (v : PyNum.t) (self : t) : t := __init__ v (y self) (z self).
Definition set_y (v : PyNum.t) (self : t) : t := __init__ (x self) v (z self).
Definition set_z (v : PyNum.t) (self : t) : t := __init__ (x self) (y self) v.

Definition __eq__ (self other : t) : bool :=
  if PyNum.eqb (x self) (x other) && PyNum.eqb (y self) (y other)
     && PyNum.eqb (z self) (z other)
  then true
  else false.

Definition __add__ (self other : t) : result t :=
  (x <~ PyNum.add (x self) (x other) ;;
   y <~ PyNum.add (y self) (y other) ;;
   z <~ PyNum.add (z self) (z other) ;;
   Ok (__init__ x y z))%M.


Definition copy (self : t) : t := __init__ (x self) (y self) (z self).

Definition vals (self : t) : list PyNum.t := [x self; y self; z self].

(** [sqrt(self.x ** 2 + self.y ** 2 + self.z ** 2)] *)
Definition magnitude (self : t) : result float :=
  (x2 <~ PyNum.sqr (x self) ;;
   y2 <~ PyNum.sqr (y self) ;;
   xy <~ PyNum.add x2 y2 ;;
   z2 <~ PyNum.sqr (z self) ;;
   xyz <~ PyNum.add xy z2 ;;
   PyNum.sqrt xyz)%M.

(** [normalize] assigns the three attributes of [self] one after the
    other; an exception in a later division leaves the earlier
    assignments in place. *)
Definition normalize : M t unit :=
  (self <- get ;;
   mag <- lift (magnitude self) ;;
   self <- get ;;
   v <- lift (PyNum.div_float (x self) mag) ;;
   modify (set_x (PyFloat v)) ;;
   self <- get ;;
   v <- lift (PyNum.div_float (y self) mag) ;;
   modify (set_y (PyFloat v)) ;;
   self <- get ;;
   v <- lift (PyNum.div_float (z self) mag) ;;
   modify (set_z (PyFloat v)))%M.

(** A point whose three coordinates are floats, resp. integers. *)
Definition of_floats (a b c : float) : t :=
  __init__ (PyFloat a) (PyFloat b) (PyFloat c).
Definition of_ints (a b c : Z) : t :=
  __init__ (PyInt a) (PyInt b) (PyInt c).

End Point.

(** ** Dictionary operations that can raise *)

Section Dict.
Context {K : Type} `{Countable K} {V : Type}.

(** [k in d] *)
Definition has_key (k : K) (d : gmap K V) : bool :=
  match d !! k with
  | Some _ => true
  | None => false
  end.

(** [d[k]] *)
Definition getitem (k : K) (d : gmap K V) : result V :=
  match d !! k with
  | Some v => Ok v
  | None => Raise KeyError
  end.

(** [del d[k]] *)
Definition delitem (k : K) (d : gmap K V) : result (gmap K V) :=
  match d !! k with
  | Some _ => Ok (delete k d)
  | None => Raise KeyError
  end.

(** [d.keys()] and [d.values()] of Python 2: new lists. *)
Definition keys (d : gmap K V) : list K := (map_to_list d).*1.
Definition values (d : gmap K V) : list V := (map_to_list d).*2.
End Dict.

(** ** class Skeleton *)

Module Skeleton.

Record t : Type := mk {
  id : Z;
  joints : gmap string Point.t;
  (** an orientation is the list [[x, y, z]] of three slices of the
      message's arguments *)
  orient : gmap string (list (list PyNum.t))
}.

Definition set_joints (v : gmap string Point.t) (self : t) : t :=
  mk (id self) v (orient self).
Definition set_orient (v : gmap string (list (list PyNum.t))) (self : t) : t :=
  mk (id self) (joints self) v.

Definition __init__ (user : Z) : t := mk user ∅ ∅.

(** [set(wanted) <= set(self.joints)] *)
Definition __contains__ (self : t) (wanted : list string) : bool :=
  bool_decide ((list_to_set wanted : gset string) ⊆ dom (joints self)).

Definition __setitem__ (key : string) (value : Point.t) (self : t) : t :=
  set_joints (<[key := value]> (joints self)) self.

Definition __getitem__ (key : string) (self : t) : result Point.t :=
  getitem key (joints self).

(** The loop of [copy_joints]: starting from an empty dictionary, every
    item of [self.joints] is entered with a copy of its point. *)
Definition copy_joints (self : t) : gmap string Point.t :=
  map_fold (λ jointName pnt joints, <[jointName := Point.copy pnt]> joints)
           ∅ (joints self).

Definition clear (self : t) : t := mk (id self) ∅ ∅.

End Skeleton.

(** ** class OSCeleton *)

Module OSCeleton.

Record t : Type := mk {
  users : gmap Z Skeleton.t;
  _users : gmap Z Skeleton.t;
  frames : Z;
  lostUsers : list Z;
  realWorld : bool
}.

(** The class attributes as the class statement leaves them. *)
Definition initial : t := mk ∅ ∅ 0 [] false.

Definition set_users (f : gmap Z Skeleton.t → gmap Z Skeleton.t) (self : t) : t :=
  mk (f (users self)) (_users self) (frames self) (lostUsers self) (realWorld self).
Definition set__users (f : gmap Z Skeleton.t → gmap Z Skeleton.t) (self : t) : t :=
  mk (users self) (f (_users self)) (frames self) (lostUsers self) (realWorld self).
Definition set_frames (f : Z → Z) (self : t) : t :=
  mk (users self) (_users self) (f (frames self)) (lostUsers self) (realWorld self).
Definition set_lostUsers (f : list Z → list Z) (self : t) : t :=
  mk (users self) (_users self) (frames self) (f (lostUsers self)) (realWorld self).
Definition set_realWorld (b : bool) (self : t) : t :=
  mk (users self) (_users self) (frames self) (lostUsers self) b.

(** The first argument of a [/joint] or [/orient] message, a joint label:
    a string or an integer; the callbacks use [str(args[0])]. *)
Inductive label : Set :=
  | LStr (s : string)
  | LInt (n : Z).

Definition str (a : label) : string :=
  match a with
  | LStr s => s
  | LInt n => NilZero.string_of_int (Z.to_int n)
  end.

(** [self._users[u]] and [self.users[u]] *)
Definition _users_getitem (u : Z) : M t Skeleton.t :=
  (self <- get ;; lift (getitem u (_users self)))%M.
Definition users_getitem (u : Z) : M t Skeleton.t :=
  (self <- get ;; lift (getitem u (users self)))%M.

(** [if u not in self._users: self._users[u] = Skeleton(u)] *)
Definition add_new_user (u : Z) : M t unit :=
  (self <- get ;;
   if negb (has_key u (_users self))
   then modify (set__users <[u := Skeleton.__init__ u]>)
   else ret tt)%M.

Definition new_user_callback (args0 : Z) : M t unit :=
  modify (set__users <[args0 := Skeleton.__init__ args0]>).

Definition lost_user_callback (args0 : Z) : M t unit :=
  try_except
    (self <- get ;;
     d <- lift (delitem args0 (_users self)) ;;
     modify (set__users (λ _, d)) ;;
     modify (set_lostUsers (λ l, l ++ [args0])) ;;
     self <- get ;;
     d <- lift (delitem args0 (users self)) ;;
     modify (set_users (λ _, d)))%M
    KeyError
    (ret tt).

Definition do_nothing_callback : M t unit := ret tt.

Definition new_skeleton_callback (args0 : Z) : M t unit := ret tt.

(** The promotion inside [joint_callback]: the in-progress skeleton of
    [u] is saved in [users] and cleared, [frames] is incremented. *)
Definition start_new_frame (u : Z) : M t unit :=
  (self <- get ;;
   (if negb (has_key u (users self))
    then modify (set_users <[u := Skeleton.__init__ u]>)
    else ret tt) ;;
   src <- _users_getitem u ;;
   dst <- users_getitem u ;;
   modify (set_users <[u := Skeleton.set_joints (Skeleton.copy_joints src) dst]>) ;;
   src <- _users_getitem u ;;
   dst <- users_getitem u ;;
   modify (set_users <[u := Skeleton.set_orient (Skeleton.orient src) dst]>) ;;
   src <- _users_getitem u ;;
   modify (set__users <[u := Skeleton.clear src]>) ;;
   modify (set_frames (λ n, n + 1)%Z))%M.

(** [1280 - a * 2560] and the like, with Python's arithmetic. *)
Definition to_mm (offset scale : Z) (a : PyNum.t) : result PyNum.t :=
  (p <~ PyNum.mul a (PyInt scale) ;; PyNum.sub (PyInt offset) p)%M.

Definition joint_callback (args0 : label) (args1 : Z)
    (args2 args3 args4 : PyNum.t) : M t unit :=
  (add_new_user args1 ;;
   skel <- _users_getitem args1 ;;
   (if has_key (str args0) (Skeleton.joints skel)
    then start_new_frame args1
    else ret tt) ;;
   self <- get ;;
   if realWorld self then
     x <- lift (to_mm 1280 2560 args2) ;;
     y <- lift (to_mm 960 1920 args3) ;;
     z <- lift (PyNum.mul (PyNum.neg args4) (PyInt 1280)) ;;
     skel <- _users_getitem args1 ;;
     modify (set__users
       <[args1 := Skeleton.__setitem__ (str args0) (Point.__init__ x y z) skel]>)
   else
     skel <- _users_getitem args1 ;;
     modify (set__users
       <[args1 := Skeleton.__setitem__ (str args0)
                    (Point.__init__ args2 args3 args4) skel]>))%M.

(** [rest] is [args[2:]], so that [args[2:5]], [args[5:8]] and [args[8:]]
    are the slices [rest[0:3]], [rest[3:6]] and [rest[6:]]. *)
Definition orient_callback (args0 : label) (args1 : Z)
    (rest : list PyNum.t) : M t unit :=
  (add_new_user args1 ;;
   let x := take 3 rest in
   let y := take 3 (drop 3 rest) in
   let z := drop 6 rest in
   skel <- _users_getitem args1 ;;
   modify (set__users
     <[args1 := Skeleton.set_orient
                  (<[str args0 := [x; y; z]]> (Skeleton.orient skel)) skel]>))%M.

Definition get_users : M t (list Z) :=
  (self <- get ;; ret (keys (_users self)))%M.

Definition get_new_skeletons : M t (list Skeleton.t) :=
  (self <- get ;;
   let tmp := values (users self) in
   modify (set_users (λ _, ∅)) ;;
   ret tmp)%M.

End OSCeleton.

Import OSCeleton(LStr, LInt).

(** ** The client's view: calls and runs *)

(** What the transport dispatches to the callbacks, and what the consumer
    calls or sets between two requests. *)
Inductive call : Type :=
  | new_user (u : Z)
  | lost_user (u : Z)
  | new_skel (u : Z)
  | joint (l : OSCeleton.label) (u : Z) (x y z : PyNum.t)
  | orient (l : OSCeleton.label) (u : Z) (rest : list PyNum.t)
  | default_msg
  | get_users
  | get_new_skeletons
  | set_realWorld (b : bool).

Inductive value : Type :=
  | VNone
  | VUsers (us : list Z)
  | VSkeletons (sks : list Skeleton.t).

Definition do_call (c : call) : M OSCeleton.t value :=
  match c with
  | new_user u => (OSCeleton.new_user_callback u ;; ret VNone)%M
  | lost_user u => (OSCeleton.lost_user_callback u ;; ret VNone)%M
  | new_skel u => (OSCeleton.new_skeleton_callback u ;; ret VNone)%M
  | joint l u x y z => (OSCeleton.joint_callback l u x y z ;; ret VNone)%M
  | orient l u rest => (OSCeleton.orient_callback l u rest ;; ret VNone)%M
  | default_msg => (OSCeleton.do_nothing_callback ;; ret VNone)%M
  | get_users => (us <- OSCeleton.get_users ;; ret (VUsers us))%M
  | get_new_skeletons =>
      (sks <- OSCeleton.get_new_skeletons ;; ret (VSkeletons sks))%M
  | set_realWorld b => (modify (OSCeleton.set_realWorld b) ;; ret VNone)%M
  end.

(** The state after a sequence of calls, first call first. *)
Definition run (cs : list call) (s : OSCeleton.t) : OSCeleton.t :=
  fold_left (λ s c, exec (do_call c) s) cs s.

(** [c] is a call that can change the joints being assembled for [u]: a
    [/joint], [/new_user] or [/lost_user] message for [u]. *)
Definition touches_joints (u : Z) (c : call) : bool :=
  match c with
  | joint _ v _ _ _ | new_user v | lost_user v => bool_decide (v = u)
  | _ => false
  end.

(** ** Closed forms of the callbacks' effects *)

(** The conversion to millimetres as one expression per kind of number. *)
Definition mm_x (a : PyNum.t) : PyNum.t :=
  match a with
  | PyInt n => PyInt (1280 - n * 2560)
  | PyFloat f => PyFloat (1280 - f * 2560)
  end.
Definition mm_y (a : PyNum.t) : PyNum.t :=
  match a with
  | PyInt n => PyInt (960 - n * 1920)
  | PyFloat f => PyFloat (960 - f * 1920)
  end.
Definition mm_z (a : PyNum.t) : PyNum.t :=
  match a with
  | PyInt n => PyInt (- n * 1280)
  | PyFloat f => PyFloat (- f * 1280)
  end.

(** The point a [/joint] message stores. *)
Definition joint_point (realWorld : bool) (x y z : PyNum.t) : Point.t :=
  if realWorld then Point.__init__ (mm_x x) (mm_y y) (mm_z z)
  else Point.__init__ x y z.

(** The skeleton being assembled for [u], once [add_new_user] has run. *)
Definition assembling (u : Z) (s : OSCeleton.t) : Skeleton.t :=
  default (Skeleton.__init__ u) (OSCeleton._users s !! u).

(** A [/joint] message starts a new frame when its label is already a key
    of the joints being assembled. *)
Definition starts_new_frame (l : OSCeleton.label) (u : Z) (s : OSCeleton.t) : bool :=
  has_key (OSCeleton.str l) (Skeleton.joints (assembling u s)).

(** A call promotes when it is a [/joint] message that starts a new frame. *)
Definition promotes (c : call) (s : OSCeleton.t) : bool :=
  match c with
  | joint l u _ _ _ => starts_new_frame l u s
  | _ => false
  end.

(** The number of promotions along a run from [s]. *)
Fixpoint promotions (cs : list call) (s : OSCeleton.t) : nat :=
  match cs with
  | [] => 0
  | c :: cs' =>
      (if promotes c s then 1 else 0) + promotions cs' (exec (do_call c) s)
  end.

Definition joint_effect (l : OSCeleton.label) (u : Z) (x y z : PyNum.t)
    (s : OSCeleton.t) : OSCeleton.t :=
  let k := OSCeleton.str l in
  let pt := joint_point (OSCeleton.realWorld s) x y z in
  let skel := assembling u s in
  if starts_new_frame l u s then
    let dst := default (Skeleton.__init__ u) (OSCeleton.users s !! u) in
    OSCeleton.mk
      (<[u := Skeleton.mk (Skeleton.id dst) (Skeleton.joints skel)
                (Skeleton.orient skel)]> (OSCeleton.users s))
      (<[u := Skeleton.mk (Skeleton.id skel) {[k := pt]} ∅]> (OSCeleton._users s))
      (OSCeleton.frames s + 1)
      (OSCeleton.lostUsers s)
      (OSCeleton.realWorld s)
  else
    OSCeleton.set__users
      <[u := Skeleton.mk (Skeleton.id skel) (<[k := pt]> (Skeleton.joints skel))
               (Skeleton.orient skel)]> s.

Definition lost_user_effect (u : Z) (s : OSCeleton.t) : OSCeleton.t :=
  match OSCeleton._users s !! u with
  | None => s
  | Some _ =>
      OSCeleton.mk (delete u (OSCeleton.users s)) (delete u (OSCeleton._users s))
        (OSCeleton.frames s) (OSCeleton.lostUsers s ++ [u]) (OSCeleton.realWorld s)
  end.

Definition orient_effect (l : OSCeleton.label) (u : Z) (rest : list PyNum.t)
    (s : OSCeleton.t) : OSCeleton.t :=
  let skel := assembling u s in
  OSCeleton.set__users
    <[u := Skeleton.mk (Skeleton.id skel) (Skeleton.joints skel)
             (<[OSCeleton.str l := [take 3 rest; take 3 (drop 3 rest); drop 6 rest]]>
                (Skeleton.orient skel))]> s.

(** The state a call leaves, in closed form. *)
Definition call_effect (c : call) (s : OSCeleton.t) : OSCeleton.t :=
  match c with
  | new_user u => OSCeleton.set__users <[u := Skeleton.__init__ u]> s
  | lost_user u => lost_user_effect u s
  | joint l u x y z => joint_effect l u x y z s
  | orient l u rest => orient_effect l u rest s
  | get_new_skeletons => OSCeleton.set_users (λ _, ∅) s
  | set_realWorld b => OSCeleton.set_realWorld b s
  | new_skel _ | default_msg | get_users => s
  end.

(** ** Frames and keys *)

(** The [/joint] messages of user [u] for a list of labels, each with its
    raw coordinates held as a point. *)
Definition joint_calls (u : Z) (ms : list (OSCeleton.label * Point.t)) : list call :=
  (λ m, joint m.1 u (Point.x m.2) (Point.y m.2) (Point.z m.2)) <$> ms.

(** The joints these messages store: the key of each label and the point
    stored for its coordinates. *)
Definition stored_joints (realWorld : bool)
    (ms : list (OSCeleton.label * Point.t)) : gmap string Point.t :=
  list_to_map
    ((λ m, (OSCeleton.str m.1,
            joint_point realWorld (Point.x m.2) (Point.y m.2) (Point.z m.2)))
       <$> ms).

(** Every skeleton of a dictionary is stored under its own identifier. *)
Definition well_keyed (d : gmap Z Skeleton.t) : Prop :=
  ∀ k sk, d !! k = Some sk → Skeleton.id sk = k.

(** The user a message is about. *)
Definition call_user (c : call) : option Z :=
  match c with
  | new_user u | lost_user u | new_skel u | joint _ u _ _ _ | orient _ u _ =>
      Some u
  | default_msg | get_users | get_new_skeletons | set_realWorld _ => None
  end.

(** ** Example runs *)

(** The state after [/new_user 1] and a first joint of user 1. *)
Definition one_joint : OSCeleton.t :=
  run [new_user 1; joint (LStr "head") 1 (PyFloat 0.5) (PyFloat 0.5) (PyFloat 2)]
    OSCeleton.initial.

(** Two [/joint] messages for the head of user 1: the second one promotes. *)
Definition two_heads : list call :=
  [joint (LStr "head") 1 (PyFloat 0.5) (PyFloat 0.5) (PyFloat 2);
   joint (LStr "head") 1 (PyFloat 0.25) (PyFloat 0.5) (PyFloat 2)].

(** * Properties *)

(** ** Running the monad *)

Ltac unfold_M :=
  unfold exec, outcome, bind, ret, get, modify, lift, raise, try_except,
    result_bind in *.

Lemma bind_ok {S A B} (m : M S A) (k : A → M S B) s a s' :
  m s = (Ok a, s') → bind m k s = k a s'.
Proof. unfold bind. by intros ->. Qed.

Lemma bind_raise {S A B} (m : M S A) (k : A → M S B) s e s' :
  m s = (Raise e, s') → bind m k s = (Raise e, s').
Proof. unfold bind. by intros ->. Qed.

(** ** Numbers *)

Lemma float_of_int_1280 : PyNum.float_of_int 1280 = Ok 1280%float.
Proof. vm_compute. reflexivity. Qed.
Lemma float_of_int_2560 : PyNum.float_of_int 2560 = Ok 2560%float.
Proof. vm_compute. reflexivity. Qed.
Lemma float_of_int_960 : PyNum.float_of_int 960 = Ok 960%float.
Proof. vm_compute. reflexivity. Qed.
Lemma float_of_int_1920 : PyNum.float_of_int 1920 = Ok 1920%float.
Proof. vm_compute. reflexivity. Qed.

Lemma to_mm_x a : OSCeleton.to_mm 1280 2560 a = Ok (mm_x a).
Proof.
  destruct a as [n|f]; [reflexivity|].
  unfold OSCeleton.to_mm, PyNum.mul, PyNum.sub, PyNum.arith, PyNum.as_float.
  rewrite float_of_int_2560. cbn -[PyNum.float_of_int].
  by rewrite float_of_int_1280.
Qed.

Lemma to_mm_y a : OSCeleton.to_mm 960 1920 a = Ok (mm_y a).
Proof.
  destruct a as [n|f]; [reflexivity|].
  unfold OSCeleton.to_mm, PyNum.mul, PyNum.sub, PyNum.arith, PyNum.as_float.
  rewrite float_of_int_1920. cbn -[PyNum.float_of_int].
  by rewrite float_of_int_960.
Qed.

Lemma to_mm_z a : PyNum.mul (PyNum.neg a) (PyInt 1280) = Ok (mm_z a).
Proof.
  destruct a as [n|f]; [reflexivity|].
  unfold PyNum.mul, PyNum.neg, PyNum.arith, PyNum.as_float.
  by rewrite float_of_int_1280.
Qed.

(** ** Points and skeletons *)

Lemma Point_copy_id (p : Point.t) : Point.copy p = p.
Proof. by destruct p. Qed.

Lemma copy_joints_id (sk : Skeleton.t) :
  Skeleton.copy_joints sk = Skeleton.joints sk.
Proof.
  unfold Skeleton.copy_joints.
  apply (map_fold_weak_ind (λ r m, r = m)); [done|].
  intros jointName pnt m r _ ->. by rewrite Point_copy_id.
Qed.

Lemma has_key_true {K V} `{Countable K} (k : K) (d : gmap K V) :
  has_key k d = true ↔ is_Some (d !! k).
Proof.
  unfold has_key. rewrite <- not_eq_None_Some.
  destruct (d !! k); split; congruence.
Qed.

Lemma has_key_false {K V} `{Countable K} (k : K) (d : gmap K V) :
  has_key k d = false ↔ d !! k = None.
Proof. unfold has_key. by destruct (d !! k). Qed.

(** ** The callbacks in closed form *)

Lemma add_new_user_run u s :
  OSCeleton.add_new_user u s =
    (Ok tt, OSCeleton.set__users <[u := assembling u s]> s).
Proof.
  unfold OSCeleton.add_new_user, assembling, has_key. unfold_M.
  destruct s as [us us' fr lu rw]; simpl.
  destruct (us' !! u) as [sk|] eqn:Hu; simpl; [|done].
  unfold OSCeleton.set__users; simpl. by rewrite insert_id.
Qed.

Lemma new_user_callback_run u s :
  OSCeleton.new_user_callback u s =
    (Ok tt, OSCeleton.set__users <[u := Skeleton.__init__ u]> s).
Proof. reflexivity. Qed.

Lemma lost_user_callback_run u s :
  OSCeleton.lost_user_callback u s = (Ok tt, lost_user_effect u s).
Proof.
  unfold OSCeleton.lost_user_callback, lost_user_effect, delitem. unfold_M.
  destruct s as [us us' fr lu rw]; simpl.
  destruct (us' !! u) as [sk|]; simpl; [|done].
  destruct (us !! u) as [sk'|] eqn:Hu; simpl; [done|].
  unfold OSCeleton.set_lostUsers, OSCeleton.set__users; simpl.
  by rewrite (delete_id us u Hu).
Qed.

Lemma _users_getitem_run u s sk :
  OSCeleton._users s !! u = Some sk → OSCeleton._users_getitem u s = (Ok sk, s).
Proof. unfold OSCeleton._users_getitem, getitem. unfold_M. by intros ->. Qed.

Lemma start_new_frame_run u s src :
  OSCeleton._users s !! u = Some src →
  OSCeleton.start_new_frame u s =
    (Ok tt,
     OSCeleton.mk
       (<[u := Skeleton.mk
                 (Skeleton.id (default (Skeleton.__init__ u) (OSCeleton.users s !! u)))
                 (Skeleton.joints src) (Skeleton.orient src)]> (OSCeleton.users s))
       (<[u := Skeleton.clear src]> (OSCeleton._users s))
       (OSCeleton.frames s + 1) (OSCeleton.lostUsers s) (OSCeleton.realWorld s)).
Proof.
  intros Hsrc. destruct s as [us us' fr lu rw]; simpl in *.
  unfold OSCeleton.start_new_frame, OSCeleton._users_getitem,
    OSCeleton.users_getitem, getitem, has_key.
  unfold_M; simpl.
  destruct (us !! u) as [dst|] eqn:Hdst; simpl;
    rewrite ?Hsrc, ?Hdst, ?lookup_insert_eq; simpl;
    rewrite ?Hsrc, ?lookup_insert_eq; simpl;
    unfold OSCeleton.set_frames, OSCeleton.set__users, OSCeleton.set_users,
      Skeleton.set_orient, Skeleton.set_joints; simpl;
    by rewrite !insert_insert_eq, copy_joints_id.
Qed.

Lemma joint_callback_run l u x y z s :
  OSCeleton.joint_callback l u x y z s = (Ok tt, joint_effect l u x y z s).
Proof.
  unfold OSCeleton.joint_callback.
  erewrite bind_ok by apply add_new_user_run.
  erewrite bind_ok by (apply _users_getitem_run, lookup_insert_eq).
  unfold joint_effect, starts_new_frame.
  set (skel := assembling u s). set (k := OSCeleton.str l).
  destruct (has_key k (Skeleton.joints skel)) eqn:Hk.
  - erewrite bind_ok by (apply start_new_frame_run, lookup_insert_eq).
    destruct s as [us us' fr lu rw]; simpl.
    unfold OSCeleton._users_getitem, getitem, joint_point. unfold_M; simpl.
    rewrite to_mm_x, to_mm_y, to_mm_z.
    destruct rw; simpl; rewrite lookup_insert_eq;
      unfold OSCeleton.set__users, Skeleton.__setitem__, Skeleton.set_joints;
      simpl; by rewrite !insert_insert_eq, insert_empty.
  - erewrite bind_ok by reflexivity.
    destruct s as [us us' fr lu rw]; simpl.
    unfold OSCeleton._users_getitem, getitem, joint_point. unfold_M; simpl.
    rewrite to_mm_x, to_mm_y, to_mm_z.
    destruct rw; simpl; rewrite lookup_insert_eq;
      unfold OSCeleton.set__users, Skeleton.__setitem__, Skeleton.set_joints;
      simpl; by rewrite !insert_insert_eq.
Qed.

Lemma orient_callback_run l u rest s :
  OSCeleton.orient_callback l u rest s = (Ok tt, orient_effect l u rest s).
Proof.
  unfold OSCeleton.orient_callback.
  erewrite bind_ok by apply add_new_user_run.
  erewrite bind_ok by (apply _users_getitem_run, lookup_insert_eq).
  unfold orient_effect, modify, OSCeleton.set__users, Skeleton.set_orient; simpl.
  by rewrite insert_insert_eq.
Qed.

Lemma get_users_run s :
  OSCeleton.get_users s = (Ok (keys (OSCeleton._users s)), s).
Proof. reflexivity. Qed.

Lemma get_new_skeletons_run s :
  OSCeleton.get_new_skeletons s =
    (Ok (values (OSCeleton.users s)), OSCeleton.set_users (λ _, ∅) s).
Proof. reflexivity. Qed.

Lemma exec_do_call c s : exec (do_call c) s = call_effect c s.
Proof.
  unfold exec. destruct c; simpl; try reflexivity.
  - by erewrite bind_ok by apply lost_user_callback_run.
  - by erewrite bind_ok by apply joint_callback_run.
  - by erewrite bind_ok by apply orient_callback_run.
Qed.

(** No call raises. *)
Lemma do_call_returns c s : ∃ v, outcome (do_call c) s = Ok v.
Proof.
  unfold outcome. destruct c; simpl; try (eexists; reflexivity).
  - erewrite bind_ok by apply lost_user_callback_run. by eexists.
  - erewrite bind_ok by apply joint_callback_run. by eexists.
  - erewrite bind_ok by apply orient_callback_run. by eexists.
Qed.

(** ** Frame boundaries *)

Lemma run_app cs1 cs2 s : run (cs1 ++ cs2) s = run cs2 (run cs1 s).
Proof. apply fold_left_app. Qed.

Lemma run_cons c cs s : run (c :: cs) s = run cs (exec (do_call c) s).
Proof. reflexivity. Qed.

Lemma exec_joint_callback l u x y z s :
  exec (OSCeleton.joint_callback l u x y z) s = joint_effect l u x y z s.
Proof. unfold exec. by rewrite joint_callback_run. Qed.

(** After a [/joint] message the label is a key of the joints being
    assembled, with the point of that message. *)
Lemma joint_effect_stored l u x y z s :
  ∃ skel,
    OSCeleton._users (joint_effect l u x y z s) !! u = Some skel ∧
    Skeleton.joints skel !! OSCeleton.str l =
      Some (joint_point (OSCeleton.realWorld s) x y z).
Proof.
  unfold joint_effect. destruct (starts_new_frame l u s); simpl;
    rewrite lookup_insert_eq; eexists; (split; [reflexivity|]); simpl.
  - apply lookup_singleton_eq.
  - apply lookup_insert_eq.
Qed.

(** Calls that are not about the joints of [u] keep them. *)
Lemma untouched_call u c s skel :
  touches_joints u c = false →
  OSCeleton._users s !! u = Some skel →
  ∃ skel', OSCeleton._users (exec (do_call c) s) !! u = Some skel' ∧
           Skeleton.joints skel' = Skeleton.joints skel.
Proof.
  intros Hc Hu. rewrite exec_do_call.
  destruct c as [v|v|v|l v x y z|l v rest| | | |b]; simpl in *;
    try (by eexists); try (apply bool_decide_eq_false in Hc).
  - rewrite lookup_insert_ne by done. by eexists.
  - unfold lost_user_effect. destruct (OSCeleton._users s !! v); simpl;
      [rewrite lookup_delete_ne by done|]; by eexists.
  - unfold joint_effect. destruct (starts_new_frame l v s); simpl;
      rewrite lookup_insert_ne by done; by eexists.
  - unfold orient_effect; simpl. destruct (decide (v = u)) as [->|Hne].
    + rewrite lookup_insert_eq. eexists; split; [done|]; simpl.
      unfold assembling. by rewrite Hu.
    + rewrite lookup_insert_ne by done. by eexists.
Qed.

Lemma untouched_run u cs : ∀ s skel,
  Forall (λ c, touches_joints u c = false) cs →
  OSCeleton._users s !! u = Some skel →
  ∃ skel', OSCeleton._users (run cs s) !! u = Some skel' ∧
           Skeleton.joints skel' = Skeleton.joints skel.
Proof.
  induction cs as [|c cs IH]; intros s skel Hcs Hu; [by eexists|].
  inversion Hcs as [|? ? Hc Hcs']; subst.
  destruct (untouched_call u c s skel Hc Hu) as (skel1 & Hu1 & Hj1).
  destruct (IH _ skel1 Hcs' Hu1) as (skel2 & Hu2 & Hj2).
  rewrite run_cons. exists skel2. split; [done|]. congruence.
Qed.

(** The promotion, from a state in which label [l] is already a key of the
    joints being assembled for [u]. *)
Lemma promotion l u x y z s skel :
  OSCeleton._users s !! u = Some skel →
  is_Some (Skeleton.joints skel !! OSCeleton.str l) →
  let s' := exec (OSCeleton.joint_callback l u x y z) s in
  outcome (OSCeleton.joint_callback l u x y z) s = Ok tt ∧
  (∃ done, OSCeleton.users s' !! u = Some done ∧
           Skeleton.joints done = Skeleton.copy_joints skel ∧
           Skeleton.joints done = Skeleton.joints skel ∧
           Skeleton.orient done = Skeleton.orient skel) ∧
  OSCeleton._users s' !! u =
    Some (Skeleton.mk (Skeleton.id skel)
            {[OSCeleton.str l := joint_point (OSCeleton.realWorld s) x y z]} ∅) ∧
  OSCeleton.frames s' = (OSCeleton.frames s + 1)%Z ∧
  (∀ v, v ≠ u → OSCeleton.users s' !! v = OSCeleton.users s !! v) ∧
  (∀ v, v ≠ u → OSCeleton._users s' !! v = OSCeleton._users s !! v) ∧
  OSCeleton.lostUsers s' = OSCeleton.lostUsers s ∧
  OSCeleton.realWorld s' = OSCeleton.realWorld s.
Proof.
  intros Hu Hl s'. subst s'. unfold outcome. rewrite exec_joint_callback.
  rewrite joint_callback_run; simpl.
  unfold joint_effect, starts_new_frame, assembling. rewrite Hu; simpl.
  apply has_key_true in Hl. rewrite Hl; simpl.
  rewrite !lookup_insert_eq, copy_joints_id.
  repeat split; try done.
  - by eexists.
  - intros v Hv. by rewrite lookup_insert_ne.
  - intros v Hv. by rewrite lookup_insert_ne.
Qed.

(** C1. If label [L] is already a key of the joints being assembled for user
    [u], a [/joint] message for [(L, u)] performs one promotion: the
    skeleton being assembled (its joints copied point by point, its
    orientations) becomes the completed skeleton of [u], whatever completed
    skeleton [u] had; the skeleton being assembled is cleared and then holds
    the point of this message as its only joint; [frames] grows by exactly
    1; nothing of another user changes. In particular, for two [/joint]
    messages for [(L, u)] with no [/joint], [/new_user] or [/lost_user]
    message for [u] in between, the second message promotes, the completed
    skeleton has the point of the first message under [L], and the point of
    the second message is the only joint being assembled. *)
Theorem duplicate_joint_promotes_once :
  (∀ s l u x y z skel,
     OSCeleton._users s !! u = Some skel →
     is_Some (Skeleton.joints skel !! OSCeleton.str l) →
     let s' := exec (OSCeleton.joint_callback l u x y z) s in
     outcome (OSCeleton.joint_callback l u x y z) s = Ok tt ∧
     (∃ done, OSCeleton.users s' !! u = Some done ∧
              Skeleton.joints done = Skeleton.copy_joints skel ∧
              Skeleton.joints done = Skeleton.joints skel ∧
              Skeleton.orient done = Skeleton.orient skel) ∧
     OSCeleton._users s' !! u =
       Some (Skeleton.mk (Skeleton.id skel)
               {[OSCeleton.str l := joint_point (OSCeleton.realWorld s) x y z]} ∅) ∧
     OSCeleton.frames s' = (OSCeleton.frames s + 1)%Z ∧
     (∀ v, v ≠ u → OSCeleton.users s' !! v = OSCeleton.users s !! v) ∧
     (∀ v, v ≠ u → OSCeleton._users s' !! v = OSCeleton._users s !! v) ∧
     OSCeleton.lostUsers s' = OSCeleton.lostUsers s ∧
     OSCeleton.realWorld s' = OSCeleton.realWorld s) ∧
  (∀ s0 l u x1 y1 z1 cs x2 y2 z2,
     Forall (λ c, touches_joints u c = false) cs →
     let s1 := run cs (exec (OSCeleton.joint_callback l u x1 y1 z1) s0) in
     let s2 := exec (OSCeleton.joint_callback l u x2 y2 z2) s1 in
     OSCeleton.frames s2 = (OSCeleton.frames s1 + 1)%Z ∧
     (∃ done, OSCeleton.users s2 !! u = Some done ∧
              Skeleton.joints done !! OSCeleton.str l =
                Some (joint_point (OSCeleton.realWorld s0) x1 y1 z1)) ∧
     (∃ skel, OSCeleton._users s2 !! u = Some skel ∧
              Skeleton.joints skel =
                {[OSCeleton.str l := joint_point (OSCeleton.realWorld s1) x2 y2 z2]} ∧
              Skeleton.orient skel = ∅)).
Proof.
  split; [intros s l u x y z skel; apply promotion|].
  intros s0 l u x1 y1 z1 cs x2 y2 z2 Hcs s1 s2.
  destruct (joint_effect_stored l u x1 y1 z1 s0) as (skel0 & Hu0 & Hl0).
  rewrite <- exec_joint_callback in Hu0.
  destruct (untouched_run u cs _ skel0 Hcs Hu0) as (skel1 & Hu1 & Hj1).
  fold s1 in Hu1.
  assert (Hl1 : is_Some (Skeleton.joints skel1 !! OSCeleton.str l)).
  { rewrite Hj1, Hl0. by eexists. }
  destruct (promotion l u x2 y2 z2 s1 skel1 Hu1 Hl1)
    as (_ & (done & Hd & _ & Hdj & _) & Hs & Hf & _).
  fold s2 in Hd, Hs, Hf. split; [done|]. split.
  - exists done. split; [done|]. by rewrite Hdj, Hj1.
  - eexists. split; [exact Hs|]. done.
Qed.

(** The second [/joint] message for the head of user 1, and for joint 7 of
    user 1 with messages about other things in between. *)
Lemma duplicate_joint_promotes_once_witness :
  OSCeleton.frames
    (exec (OSCeleton.joint_callback (LStr "head") 1 (PyFloat 1) (PyFloat 1)
             (PyFloat 1)) one_joint)
  = (OSCeleton.frames one_joint + 1)%Z ∧
  OSCeleton.frames
    (exec (OSCeleton.joint_callback (LInt 7) 1 (PyInt 0) (PyInt 0) (PyInt 0))
       (run [orient (LInt 7) 1 [];
             joint (LStr "head") 2 (PyInt 0) (PyInt 0) (PyInt 0);
             get_new_skeletons]
          (exec (OSCeleton.joint_callback (LInt 7) 1 (PyInt 1) (PyInt 2) (PyInt 3))
             OSCeleton.initial)))
  = (OSCeleton.frames
       (run [orient (LInt 7) 1 [];
             joint (LStr "head") 2 (PyInt 0) (PyInt 0) (PyInt 0);
             get_new_skeletons]
          (exec (OSCeleton.joint_callback (LInt 7) 1 (PyInt 1) (PyInt 2) (PyInt 3))
             OSCeleton.initial)) + 1)%Z.
Proof.
  split.
  - pose proof (proj1 duplicate_joint_promotes_once one_joint (LStr "head")
                  1%Z (PyFloat 1) (PyFloat 1) (PyFloat 1)
                  (Skeleton.mk 1 {["head" := Point.of_floats 0.5 0.5 2]} ∅))
      as Hw.
    destruct Hw as (_ & _ & _ & Hf & _).
    + vm_compute. reflexivity.
    + vm_compute. eexists. reflexivity.
    + exact Hf.
  - pose proof (proj2 duplicate_joint_promotes_once OSCeleton.initial (LInt 7)
                  1%Z (PyInt 1) (PyInt 2) (PyInt 3)
                  [orient (LInt 7) 1 []; joint (LStr "head") 2 (PyInt 0) (PyInt 0) (PyInt 0);
                   get_new_skeletons]
                  (PyInt 0) (PyInt 0) (PyInt 0)) as Hw.
    destruct Hw as (Hf & _).
    + repeat constructor.
    + exact Hf.
Defined.

(** ** Draining the completed skeletons *)

Lemma frames_call c s :
  OSCeleton.frames (exec (do_call c) s) =
    (OSCeleton.frames s + if promotes c s then 1 else 0)%Z.
Proof.
  rewrite exec_do_call.
  destruct c as [v|v|v|l v x y z|l v rest| | | |b]; simpl; try lia.
  - unfold lost_user_effect. destruct (OSCeleton._users s !! v); simpl; lia.
  - unfold joint_effect. destruct (starts_new_frame l v s); simpl; lia.
Qed.

(** [frames] counts the promotions. *)
Lemma frames_run cs : ∀ s,
  OSCeleton.frames (run cs s) = (OSCeleton.frames s + Z.of_nat (promotions cs s))%Z.
Proof.
  induction cs as [|c cs IH]; intros s; [simpl; lia|].
  rewrite run_cons, IH, frames_call. cbn [promotions].
  destruct (promotes c s); lia.
Qed.

Lemma users_empty_call c s :
  OSCeleton.users s = ∅ → promotes c s = false →
  OSCeleton.users (exec (do_call c) s) = ∅.
Proof.
  intros He Hp. rewrite exec_do_call.
  destruct c as [v|v|v|l v x y z|l v rest| | | |b]; simpl in *; try done.
  - unfold lost_user_effect. destruct (OSCeleton._users s !! v); simpl; [|done].
    rewrite He. apply delete_empty.
  - unfold joint_effect. by rewrite Hp.
Qed.

Lemma users_empty_run cs : ∀ s,
  OSCeleton.users s = ∅ → promotions cs s = 0 → OSCeleton.users (run cs s) = ∅.
Proof.
  induction cs as [|c cs IH]; intros s He Hp; [done|].
  simpl in Hp. rewrite run_cons.
  destruct (promotes c s) eqn:Hc; [lia|].
  apply IH; [by apply users_empty_call | lia].
Qed.

(** Every completed skeleton was saved by a promotion of the run that led
    to it, when the run started without completed skeletons. *)
Lemma completed_was_promoted cs : ∀ s u sk,
  OSCeleton.users s = ∅ →
  OSCeleton.users (run cs s) !! u = Some sk →
  ∃ cs1 l x y z cs2,
    cs = cs1 ++ joint l u x y z :: cs2 ∧
    starts_new_frame l u (run cs1 s) = true ∧
    Skeleton.joints sk = Skeleton.joints (assembling u (run cs1 s)) ∧
    Skeleton.orient sk = Skeleton.orient (assembling u (run cs1 s)).
Proof.
  induction cs as [|c cs IH] using rev_ind; intros s u sk He Hsk.
  { simpl in Hsk. by rewrite He, lookup_empty in Hsk. }
  rewrite run_app in Hsk. simpl in Hsk. rewrite exec_do_call in Hsk.
  assert (Hkeep : OSCeleton.users (run cs s) !! u = Some sk →
    ∃ cs1 l x y z cs2,
      cs ++ [c] = cs1 ++ joint l u x y z :: cs2 ∧
      starts_new_frame l u (run cs1 s) = true ∧
      Skeleton.joints sk = Skeleton.joints (assembling u (run cs1 s)) ∧
      Skeleton.orient sk = Skeleton.orient (assembling u (run cs1 s))).
  { intros Hold.
    destruct (IH s u sk He Hold) as (cs1 & l & x & y & z & cs2 & -> & Hrest).
    exists cs1, l, x, y, z, (cs2 ++ [c]). split; [|done].
    by rewrite <- app_assoc. }
  destruct c as [v|v|v|l v x y z|l v rest| | | |b]; simpl in Hsk; auto.
  - unfold lost_user_effect in Hsk.
    destruct (OSCeleton._users (run cs s) !! v); simpl in Hsk; auto.
    apply lookup_delete_Some in Hsk as [_ Hsk]. auto.
  - unfold joint_effect in Hsk.
    destruct (starts_new_frame l v (run cs s)) eqn:Hp; simpl in Hsk; auto.
    destruct (decide (v = u)) as [->|Hne].
    + rewrite lookup_insert_eq in Hsk. injection Hsk as <-.
      by exists cs, l, x, y, z, [].
    + rewrite lookup_insert_ne in Hsk by done. auto.
  - by rewrite lookup_empty in Hsk.
Qed.

Lemma elem_of_values {K V} `{Countable K} (d : gmap K V) (v : V) :
  v ∈ values d ↔ ∃ k, d !! k = Some v.
Proof.
  unfold values. rewrite list_elem_of_fmap. split.
  - intros ([k v'] & -> & Hkv). exists k. by apply elem_of_map_to_list.
  - intros (k & Hk). exists (k, v). split; [done|]. by apply elem_of_map_to_list.
Qed.

Lemma values_empty {K V} `{Countable K} : values (∅ : gmap K V) = [].
Proof. unfold values. by rewrite map_to_list_empty. Qed.

(** C2. [get_new_skeletons] returns the completed skeletons, one list entry
    per user that has one, and leaves [users] empty and everything else as
    it was; the callbacks run to completion one after the other, so this is
    one step of the aggregator. After a call, as long as no [/joint] message
    has started a new frame, a further call returns the empty list; and
    whatever a later call returns was saved by a promotion that happened
    after this call, so that no promoted skeleton is returned by two
    calls. The promotions of a run are what [frames] counts. *)
Theorem get_new_skeletons_drains :
  (∀ s,
     outcome OSCeleton.get_new_skeletons s = Ok (values (OSCeleton.users s)) ∧
     (∀ sk, sk ∈ values (OSCeleton.users s) ↔
            ∃ u, OSCeleton.users s !! u = Some sk) ∧
     length (values (OSCeleton.users s)) = size (OSCeleton.users s) ∧
     exec OSCeleton.get_new_skeletons s =
       OSCeleton.mk ∅ (OSCeleton._users s) (OSCeleton.frames s)
         (OSCeleton.lostUsers s) (OSCeleton.realWorld s)) ∧
  (∀ s cs,
     let s1 := exec OSCeleton.get_new_skeletons s in
     promotions cs s1 = 0 →
     outcome OSCeleton.get_new_skeletons (run cs s1) = Ok []) ∧
  (∀ s cs sk,
     let s1 := exec OSCeleton.get_new_skeletons s in
     outcome OSCeleton.get_new_skeletons (run cs s1) = Ok (values (OSCeleton.users (run cs s1))) ∧
     (sk ∈ values (OSCeleton.users (run cs s1)) →
      ∃ u cs1 l x y z cs2,
        cs = cs1 ++ joint l u x y z :: cs2 ∧
        starts_new_frame l u (run cs1 s1) = true ∧
        Skeleton.joints sk = Skeleton.joints (assembling u (run cs1 s1)) ∧
        Skeleton.orient sk = Skeleton.orient (assembling u (run cs1 s1)))) ∧
  (∀ s cs,
     OSCeleton.frames (run cs s) =
       (OSCeleton.frames s + Z.of_nat (promotions cs s))%Z).
Proof.
  split; [|split; [|split]]; [| | |intros s cs; apply frames_run].
  - intros s. repeat split.
    + by apply elem_of_values.
    + by apply elem_of_values.
    + unfold values. by rewrite length_fmap, length_map_to_list.
  - intros s cs s1 Hp. unfold outcome.
    rewrite get_new_skeletons_run; simpl.
    rewrite (users_empty_run cs s1); [by rewrite values_empty|done|done].
  - intros s cs sk s1. split; [done|].
    intros (u & Hu)%elem_of_values.
    exists u. by apply completed_was_promoted.
Qed.

(** After the completed skeleton of user 1 was fetched, messages that start
    no frame leave nothing to fetch. *)
Lemma get_new_skeletons_drains_witness :
  outcome OSCeleton.get_new_skeletons
    (run [joint (LStr "neck") 1 (PyInt 0) (PyInt 0) (PyInt 0); new_user 2; lost_user 1]
       (exec OSCeleton.get_new_skeletons (run two_heads OSCeleton.initial)))
  = Ok [].
Proof.
  apply (proj1 (proj2 get_new_skeletons_drains)).
  vm_compute. reflexivity.
Defined.

(** ** User lifecycle *)

(** C3, the claim as stated fails: a [/lost_user] message for a user that is
    not being tracked raises [KeyError] at the first [del], before the
    [append]; the exception is swallowed and [lostUsers] is left as it
    was. *)
Lemma lost_user_unknown_not_logged :
  OSCeleton.lostUsers (exec (OSCeleton.lost_user_callback 5) OSCeleton.initial)
  ≠ OSCeleton.lostUsers OSCeleton.initial ++ [5%Z].
Proof. vm_compute. discriminate. Qed.

(** C3, as the code has it. A [/lost_user] message for [u] never raises.
    When [u] is being assembled, its entry in [_users] is deleted, [u] is
    appended to [lostUsers], and its entry in [users] is deleted if there
    is one. When [u] is not being assembled, the state is left as it was:
    nothing is appended to [lostUsers]. *)
Theorem lost_user_removes_tracked_user : ∀ u s,
  let s' := exec (OSCeleton.lost_user_callback u) s in
  outcome (OSCeleton.lost_user_callback u) s = Ok tt ∧
  match OSCeleton._users s !! u with
  | Some _ =>
      OSCeleton._users s' = delete u (OSCeleton._users s) ∧
      OSCeleton.users s' = delete u (OSCeleton.users s) ∧
      OSCeleton.lostUsers s' = OSCeleton.lostUsers s ++ [u] ∧
      OSCeleton.frames s' = OSCeleton.frames s ∧
      OSCeleton.realWorld s' = OSCeleton.realWorld s
  | None => s' = s
  end.
Proof.
  intros u s s'. subst s'. unfold exec, outcome.
  rewrite lost_user_callback_run; simpl. split; [done|].
  unfold lost_user_effect. by destruct (OSCeleton._users s !! u).
Qed.


(** C4, the claim as stated fails: a second [/new_user] message for a user
    whose skeleton already holds a joint replaces that skeleton by an empty
    one. *)
Lemma new_user_again_drops_joints :
  Skeleton.joints <$> (OSCeleton._users (exec (OSCeleton.new_user_callback 1) one_joint) !! 1%Z)
  ≠ Skeleton.joints <$> (OSCeleton._users one_joint !! 1%Z).
Proof.
  intros Heq.
  apply (f_equal (λ o, j ← o; j !! "head")) in Heq.
  vm_compute in Heq. discriminate.
Qed.

(** C4, as the code has it. A [/new_user] message for [u] never raises and
    binds [u] in [_users] to a new skeleton with identifier [u], no joint
    and no orientation, whether [u] was being assembled or not; [users],
    [frames], [lostUsers] and [realWorld] and the other entries of
    [_users] are left as they were. A second message right after the first
    changes nothing more. *)
Theorem new_user_installs_empty_skeleton : ∀ u s,
  let s' := exec (OSCeleton.new_user_callback u) s in
  outcome (OSCeleton.new_user_callback u) s = Ok tt ∧
  OSCeleton._users s' !! u = Some (Skeleton.mk u ∅ ∅) ∧
  (∀ v, v ≠ u → OSCeleton._users s' !! v = OSCeleton._users s !! v) ∧
  OSCeleton.users s' = OSCeleton.users s ∧
  OSCeleton.frames s' = OSCeleton.frames s ∧
  OSCeleton.lostUsers s' = OSCeleton.lostUsers s ∧
  OSCeleton.realWorld s' = OSCeleton.realWorld s ∧
  exec (OSCeleton.new_user_callback u) s' = s'.
Proof.
  intros u s s'. subst s'. unfold exec, outcome; simpl.
  repeat split.
  - apply lookup_insert_eq.
  - intros v Hv. by apply lookup_insert_ne.
  - unfold OSCeleton.set__users; simpl. by rewrite insert_insert_eq.
Qed.

(** ** Coordinates *)

(** C5. The point a [/joint] message stores under its label: the raw
    coordinates as they are when [realWorld] is false, and
    [(1280 - rawX * 2560, 960 - rawY * 1920, -rawZ * 1280)] when it is
    true, in binary64 arithmetic for float coordinates and in exact integer
    arithmetic for integer coordinates; the raw floats (0.5, 0.5, 0.5) are
    stored as (0, 0, -640). *)
Theorem joint_stores_converted_point :
  (∀ s l u (rawX rawY rawZ : float),
     let s' := exec (OSCeleton.joint_callback l u (PyFloat rawX) (PyFloat rawY)
                       (PyFloat rawZ)) s in
     ∃ skel, OSCeleton._users s' !! u = Some skel ∧
       Skeleton.joints skel !! OSCeleton.str l =
         Some (if OSCeleton.realWorld s
               then Point.of_floats (1280 - rawX * 2560) (960 - rawY * 1920)
                      (- rawZ * 1280)
               else Point.of_floats rawX rawY rawZ)) ∧
  (∀ s l u (rawX rawY rawZ : Z),
     let s' := exec (OSCeleton.joint_callback l u (PyInt rawX) (PyInt rawY)
                       (PyInt rawZ)) s in
     ∃ skel, OSCeleton._users s' !! u = Some skel ∧
       Skeleton.joints skel !! OSCeleton.str l =
         Some (if OSCeleton.realWorld s
               then Point.of_ints (1280 - rawX * 2560) (960 - rawY * 1920)
                      (- rawZ * 1280)
               else Point.of_ints rawX rawY rawZ)) ∧
  (∀ s l u,
     OSCeleton.realWorld s = true →
     let s' := exec (OSCeleton.joint_callback l u (PyFloat 0.5) (PyFloat 0.5)
                       (PyFloat 0.5)) s in
     ∃ skel, OSCeleton._users s' !! u = Some skel ∧
       Skeleton.joints skel !! OSCeleton.str l =
         Some (Point.of_floats 0 0 (-640))).
Proof.
  split; [|split].
  - intros s l u rawX rawY rawZ s'. subst s'. rewrite exec_joint_callback.
    destruct (joint_effect_stored l u (PyFloat rawX) (PyFloat rawY)
                (PyFloat rawZ) s) as (skel & Hu & Hl).
    exists skel. split; [done|]. rewrite Hl. unfold joint_point.
    by destruct (OSCeleton.realWorld s).
  - intros s l u rawX rawY rawZ s'. subst s'. rewrite exec_joint_callback.
    destruct (joint_effect_stored l u (PyInt rawX) (PyInt rawY)
                (PyInt rawZ) s) as (skel & Hu & Hl).
    exists skel. split; [done|]. rewrite Hl. unfold joint_point.
    by destruct (OSCeleton.realWorld s).
  - intros s l u Hrw s'. subst s'. rewrite exec_joint_callback.
    destruct (joint_effect_stored l u (PyFloat 0.5) (PyFloat 0.5)
                (PyFloat 0.5) s) as (skel & Hu & Hl).
    exists skel. split; [done|]. rewrite Hl, Hrw. vm_compute. reflexivity.
Qed.

(** The torso of user 3 at the centre of the image, in millimetres. *)
Lemma joint_stores_converted_point_witness :
  ∃ skel,
    OSCeleton._users
      (exec (OSCeleton.joint_callback (LStr "torso") 3 (PyFloat 0.5) (PyFloat 0.5)
               (PyFloat 0.5)) (OSCeleton.set_realWorld true OSCeleton.initial))
      !! 3%Z = Some skel ∧
    Skeleton.joints skel !! "torso" = Some (Point.of_floats 0 0 (-640)).
Proof.
  apply (proj2 (proj2 joint_stores_converted_point)
           (OSCeleton.set_realWorld true OSCeleton.initial) (LStr "torso") 3%Z).
  reflexivity.
Defined.

(** ** Orientations *)

(** C6. An [/orient] message for [(l, u)] with nine matrix values never
    raises; it creates the skeleton of [u] in [_users] when there is none,
    binds [str(l)] in its orientations to the three rows of three values,
    and keeps its other orientations and its joints. The joints being
    assembled for every user, [users], [frames], [lostUsers] and
    [realWorld] are left as they were, whether the label had an
    orientation or not: no promotion takes place. *)
Theorem orient_stores_rows_without_promotion :
  ∀ s l u (m0 m1 m2 m3 m4 m5 m6 m7 m8 : PyNum.t),
  let rows := [[m0; m1; m2]; [m3; m4; m5]; [m6; m7; m8]] in
  let s' := exec (OSCeleton.orient_callback l u
                    [m0; m1; m2; m3; m4; m5; m6; m7; m8]) s in
  outcome (OSCeleton.orient_callback l u
             [m0; m1; m2; m3; m4; m5; m6; m7; m8]) s = Ok tt ∧
  match OSCeleton._users s !! u with
  | None =>
      OSCeleton._users s' !! u =
        Some (Skeleton.mk u ∅ {[OSCeleton.str l := rows]})
  | Some skel =>
      OSCeleton._users s' !! u =
        Some (Skeleton.mk (Skeleton.id skel) (Skeleton.joints skel)
                (<[OSCeleton.str l := rows]> (Skeleton.orient skel)))
  end ∧
  (∀ v, v ≠ u → OSCeleton._users s' !! v = OSCeleton._users s !! v) ∧
  (∀ v, Skeleton.joints <$> (OSCeleton._users s !! v) = None ∧
        Skeleton.joints <$> (OSCeleton._users s' !! v) = Some ∅ ∧ v = u
        ∨ Skeleton.joints <$> (OSCeleton._users s' !! v) =
          Skeleton.joints <$> (OSCeleton._users s !! v)) ∧
  OSCeleton.users s' = OSCeleton.users s ∧
  OSCeleton.frames s' = OSCeleton.frames s ∧
  OSCeleton.lostUsers s' = OSCeleton.lostUsers s ∧
  OSCeleton.realWorld s' = OSCeleton.realWorld s.
Proof.
  intros s l u m0 m1 m2 m3 m4 m5 m6 m7 m8 rows s'. subst s'.
  unfold exec, outcome. rewrite orient_callback_run; simpl.
  split; [done|]. unfold assembling.
  split; [|split; [|split]]; [| |intros v|done].
  - rewrite lookup_insert_eq.
    destruct (OSCeleton._users s !! u) as [skel|]; simpl; [done|].
    by rewrite insert_empty.
  - intros v Hv. by apply lookup_insert_ne.
  - destruct (decide (u = v)) as [<-|Hv].
    + rewrite lookup_insert_eq.
      destruct (OSCeleton._users s !! u) as [skel|]; simpl; auto.
    + right. by rewrite lookup_insert_ne.
Qed.

(** ** Membership *)

(** C7. [wanted in skeleton] is true exactly when every label of [wanted]
    is a key of the skeleton's joints; the orientations of the skeleton
    play no part. *)
Theorem contains_iff_all_joints : ∀ (s : Skeleton.t) (ws : list string),
  (Skeleton.__contains__ s ws = true ↔
     ∀ l, l ∈ ws → is_Some (Skeleton.joints s !! l)) ∧
  (∀ o, Skeleton.__contains__ (Skeleton.set_orient o s) ws =
        Skeleton.__contains__ s ws).
Proof.
  intros s ws. split; [|done].
  unfold Skeleton.__contains__. rewrite bool_decide_eq_true. split.
  - intros Hsub l Hl. apply elem_of_dom, Hsub. by apply elem_of_list_to_set.
  - intros Hall l Hl%elem_of_list_to_set. by apply elem_of_dom, Hall.
Qed.

(** A skeleton with a head joint and a neck orientation contains
    [("head", "head")]. *)
Lemma contains_iff_all_joints_witness :
  Skeleton.__contains__
    (Skeleton.mk 1 {["head" := Point.of_ints 1 2 3]}
       {["neck" := [[PyInt 1]; []; []]]})
    ["head"; "head"] = true.
Proof.
  apply (proj1 (contains_iff_all_joints _ _)).
  intros l Hl. vm_compute in Hl.
  assert (l = "head") as ->.
  { inversion Hl as [|? ? ? Hl']; [done|]. inversion Hl' as [|? ? ? Hl'']; [done|].
    inversion Hl''. }
  vm_compute. eexists. reflexivity.
Defined.

(** ** The completed users are being assembled *)

Lemma completed_subset_call c s :
  dom (OSCeleton.users s) ⊆ dom (OSCeleton._users s) →
  dom (OSCeleton.users (exec (do_call c) s)) ⊆
    dom (OSCeleton._users (exec (do_call c) s)).
Proof.
  intros Hs. rewrite exec_do_call.
  destruct c as [v|v|v|l v x y z|l v rest| | | |b]; simpl; try done.
  - etrans; [exact Hs|apply dom_insert_subseteq].
  - unfold lost_user_effect. destruct (OSCeleton._users s !! v); simpl; [|done].
    rewrite !dom_delete_L. intros w [Hw Hne]%elem_of_difference.
    apply elem_of_difference. split; [by apply Hs|done].
  - unfold joint_effect. destruct (starts_new_frame l v s); simpl.
    + rewrite !dom_insert_L. intros w [Hw|Hw]%elem_of_union.
      * apply elem_of_union. by left.
      * apply elem_of_union. right. by apply Hs.
    + etrans; [exact Hs|apply dom_insert_subseteq].
  - etrans; [exact Hs|apply dom_insert_subseteq].
Qed.

Lemma completed_subset_run cs : ∀ s,
  dom (OSCeleton.users s) ⊆ dom (OSCeleton._users s) →
  dom (OSCeleton.users (run cs s)) ⊆ dom (OSCeleton._users (run cs s)).
Proof.
  induction cs as [|c cs IH]; intros s Hs; [done|].
  rewrite run_cons. by apply IH, completed_subset_call.
Qed.

Lemma elem_of_keys {K V} `{Countable K} (d : gmap K V) (k : K) :
  k ∈ keys d ↔ is_Some (d !! k).
Proof.
  unfold keys. rewrite list_elem_of_fmap. split.
  - intros ([k' v] & -> & Hkv). exists v. by apply elem_of_map_to_list.
  - intros (v & Hk). exists (k, v). split; [done|]. by apply elem_of_map_to_list.
Qed.

(** C10. In every state that a sequence of callback and accessor calls
    reaches from the initial state, the keys of [users] are keys of
    [_users]: a user with a completed skeleton that was not fetched yet is
    being assembled, and is in the list that [get_users] returns. *)
Theorem completed_users_are_assembling : ∀ cs,
  let s := run cs OSCeleton.initial in
  dom (OSCeleton.users s) ⊆ dom (OSCeleton._users s) ∧
  ∃ us, outcome OSCeleton.get_users s = Ok us ∧
        ∀ u, is_Some (OSCeleton.users s !! u) → u ∈ us.
Proof.
  intros cs s.
  assert (Hs : dom (OSCeleton.users s) ⊆ dom (OSCeleton._users s)).
  { apply completed_subset_run. simpl. set_solver. }
  split; [done|]. eexists. split; [reflexivity|].
  intros u Hu%elem_of_dom. by apply elem_of_keys, elem_of_dom, Hs.
Qed.

(** After two [/joint] messages for the head of user 1, user 1 has a
    completed skeleton and is being assembled. *)
Lemma completed_users_are_assembling_witness :
  dom (OSCeleton.users (run two_heads OSCeleton.initial)) ⊆
    dom (OSCeleton._users (run two_heads OSCeleton.initial)) ∧
  is_Some (OSCeleton.users (run two_heads OSCeleton.initial) !! 1%Z).
Proof.
  split.
  - exact (proj1 (completed_users_are_assembling two_heads)).
  - vm_compute. eexists. reflexivity.
Defined.

(** ** Point arithmetic *)








(** * Further properties of the code *)

(** ** Skeleton as a dictionary of joints *)

(** X10. [skeleton[key]] after [skeleton[key] = value] returns [value];
    the assignment leaves the other joints, the orientations and the
    identifier as they were; and [skeleton[key]] raises [KeyError] exactly
    when [key] is not a joint of the skeleton. *)
Theorem setitem_then_getitem : ∀ (s : Skeleton.t) (key key' : string) (value : Point.t),
  Skeleton.__getitem__ key (Skeleton.__setitem__ key value s) = Ok value ∧
  (key' ≠ key →
     Skeleton.__getitem__ key' (Skeleton.__setitem__ key value s) =
       Skeleton.__getitem__ key' s) ∧
  (Skeleton.__getitem__ key' s = Raise KeyError ↔
     Skeleton.joints s !! key' = None) ∧
  Skeleton.orient (Skeleton.__setitem__ key value s) = Skeleton.orient s ∧
  Skeleton.id (Skeleton.__setitem__ key value s) = Skeleton.id s.
Proof.
  intros s key key' value.
  unfold Skeleton.__getitem__, Skeleton.__setitem__, getitem; simpl.
  rewrite lookup_insert_eq. repeat split; try done.
  - intros Hne. by rewrite lookup_insert_ne.
  - by destruct (Skeleton.joints s !! key').
  - by intros ->.
Qed.

(** X11. [clear] leaves a skeleton without joints and without
    orientations and with the same identifier: afterwards every
    [skeleton[key]] raises [KeyError], and [wanted in skeleton] holds only
    for an empty [wanted]. *)
Theorem clear_empties_skeleton : ∀ (s : Skeleton.t) (key : string) (wanted : list string),
  Skeleton.clear s = Skeleton.__init__ (Skeleton.id s) ∧
  Skeleton.__getitem__ key (Skeleton.clear s) = Raise KeyError ∧
  (Skeleton.__contains__ (Skeleton.clear s) wanted = true ↔ wanted = []).
Proof.
  intros s key wanted. split; [done|]. split; [done|].
  unfold Skeleton.__contains__, Skeleton.clear; simpl.
  rewrite bool_decide_eq_true, dom_empty_L. split.
  - intros Hsub. destruct wanted as [|w ws]; [done|].
    exfalso. apply (not_elem_of_empty (C := gset string) w), Hsub.
    apply elem_of_list_to_set. by left.
  - by intros ->.
Qed.

(** X12. [copy_joints] returns a dictionary with the labels of
    [self.joints], each bound to a point with the coordinates of the
    point it copies. *)
Theorem copy_joints_same_joints : ∀ (s : Skeleton.t) (key : string),
  dom (Skeleton.copy_joints s) = dom (Skeleton.joints s) ∧
  Skeleton.copy_joints s !! key = Point.copy <$> (Skeleton.joints s !! key) ∧
  Skeleton.copy_joints s !! key = Skeleton.joints s !! key.
Proof.
  intros s key. rewrite copy_joints_id. split; [done|]. split; [|done].
  destruct (Skeleton.joints s !! key) as [p|]; simpl; [|done].
  by rewrite Point_copy_id.
Qed.

(** X13. Joints are only ever added by an assignment: whatever a skeleton
    contained, it still contains after [skeleton[key] = value], together
    with [key]. *)
Theorem contains_after_setitem :
  ∀ (s : Skeleton.t) (key : string) (value : Point.t) (wanted : list string),
  Skeleton.__contains__ s wanted = true →
  Skeleton.__contains__ (Skeleton.__setitem__ key value s) (key :: wanted) = true.
Proof.
  intros s key value wanted.
  unfold Skeleton.__contains__, Skeleton.__setitem__; simpl.
  rewrite !bool_decide_eq_true, dom_insert_L. intros Hsub w Hw.
  simpl in Hw. apply elem_of_union in Hw as [Hw|Hw]; apply elem_of_union.
  - by left.
  - right. by apply Hsub.
Qed.

(** A skeleton with a head gets a neck. *)
Lemma contains_after_setitem_witness :
  Skeleton.__contains__
    (Skeleton.__setitem__ "neck" (Point.of_ints 0 1 2)
       (Skeleton.mk 4 {["head" := Point.of_ints 1 2 3]} ∅))
    ["neck"; "head"] = true.
Proof. apply contains_after_setitem. vm_compute. reflexivity. Defined.

(** ** Point comparison and addition *)

Lemma SFeqb_sym (a b : spec_float) : SFeqb a b = SFeqb b a.
Proof.
  unfold SFeqb.
  destruct a as [sa|sa| |sa ma ea], b as [sb|sb| |sb mb eb]; simpl;
    try reflexivity; try (by destruct sa); try (by destruct sb);
    try (by destruct sa, sb).
  destruct sa, sb; try reflexivity.
  - rewrite (Z.compare_antisym ea eb).
    destruct (ea ?= eb)%Z; simpl; try reflexivity.
    change (Pos.compare_cont Eq mb ma) with (mb ?= ma)%positive.
    change (Pos.compare_cont Eq ma mb) with (ma ?= mb)%positive.
    rewrite (Pos.compare_antisym ma mb). by destruct (ma ?= mb)%positive.
  - rewrite (Z.compare_antisym ea eb).
    destruct (ea ?= eb)%Z; simpl; try reflexivity.
    change (Pos.compare_cont Eq mb ma) with (mb ?= ma)%positive.
    change (Pos.compare_cont Eq ma mb) with (ma ?= mb)%positive.
    rewrite (Pos.compare_antisym ma mb). by destruct (ma ?= mb)%positive.
Qed.

Lemma float_eqb_sym (a b : float) : PrimFloat.eqb a b = PrimFloat.eqb b a.
Proof. rewrite !FloatAxioms.eqb_spec. apply SFeqb_sym. Qed.

Lemma PyNum_eqb_sym (a b : PyNum.t) : PyNum.eqb a b = PyNum.eqb b a.
Proof.
  destruct a as [m|x], b as [n|y]; simpl; try reflexivity.
  - apply Z.eqb_sym.
  - apply float_eqb_sym.
Qed.

(** X14. [==] on points is symmetric, whatever the kinds of the
    coordinates. A point with integer coordinates equals its copy; a point
    with float coordinates equals its copy unless one of them is a nan. *)
Theorem point_eq_symmetric :
  (∀ p q : Point.t, Point.__eq__ p q = Point.__eq__ q p) ∧
  (∀ a b c : Z,
     Point.__eq__ (Point.of_ints a b c) (Point.copy (Point.of_ints a b c)) = true) ∧
  (∀ a b c : float,
     Point.__eq__ (Point.of_floats a b c) (Point.copy (Point.of_floats a b c)) =
       negb (PrimFloat.is_nan a || PrimFloat.is_nan b || PrimFloat.is_nan c)).
Proof.
  split; [|split].
  - intros p q. unfold Point.__eq__.
    by rewrite (PyNum_eqb_sym (Point.x p)), (PyNum_eqb_sym (Point.y p)),
      (PyNum_eqb_sym (Point.z p)).
  - intros a b c. unfold Point.__eq__; simpl. by rewrite !Z.eqb_refl.
  - intros a b c. unfold Point.__eq__, PrimFloat.is_nan; simpl.
    by destruct (PrimFloat.eqb a a), (PrimFloat.eqb b b), (PrimFloat.eqb c c).
Qed.

Lemma SFadd_comm (a b : spec_float) : SFadd prec emax a b = SFadd prec emax b a.
Proof.
  destruct a as [sa|sa| |sa ma ea], b as [sb|sb| |sb mb eb]; simpl;
    try reflexivity; try (by destruct sa, sb).
  by rewrite (Z.min_comm eb ea), Z.add_comm.
Qed.

Lemma float_add_comm (a b : float) : (a + b)%float = (b + a)%float.
Proof. apply Prim2SF_inj. rewrite !add_spec. apply SFadd_comm. Qed.

Lemma as_float_raises (a : PyNum.t) e :
  PyNum.as_float a = Raise e → e = OverflowError.
Proof.
  destruct a as [n|f]; simpl; [|done].
  unfold PyNum.float_of_int. case_match; congruence.
Qed.

Lemma PyNum_add_comm (a b : PyNum.t) : PyNum.add a b = PyNum.add b a.
Proof.
  unfold PyNum.add, PyNum.arith.
  destruct a as [m|x], b as [n|y]; unfold result_bind.
  - by rewrite Z.add_comm.
  - simpl. destruct (PyNum.float_of_int m); [|done]. by rewrite float_add_comm.
  - simpl. destruct (PyNum.float_of_int n); [|done]. by rewrite float_add_comm.
  - simpl. by rewrite float_add_comm.
Qed.

(** X15. Point addition is commutative: [p + q] and [q + p] return points
    with the same coordinates, or raise the same exception, for integer,
    float and mixed coordinates. *)
Theorem point_add_commutative : ∀ p q : Point.t,
  Point.__add__ p q = Point.__add__ q p.
Proof.
  intros p q. unfold Point.__add__.
  by rewrite (PyNum_add_comm (Point.x p)), (PyNum_add_comm (Point.y p)),
    (PyNum_add_comm (Point.z p)).
Qed.

(** X17. Whatever the kinds of its coordinates, when [normalize] returns,
    the magnitude computed before the first assignment is not zero and
    the point holds three floats: each coordinate, as a float, divided by
    that one magnitude. *)
Theorem normalize_divides_all_by_one_magnitude : ∀ p : Point.t,
  outcome Point.normalize p = Ok tt →
  ∃ m fx fy fz,
    Point.magnitude p = Ok m ∧ PrimFloat.eqb m 0 = false ∧
    PyNum.as_float (Point.x p) = Ok fx ∧
    PyNum.as_float (Point.y p) = Ok fy ∧
    PyNum.as_float (Point.z p) = Ok fz ∧
    exec Point.normalize p = Point.of_floats (fx / m) (fy / m) (fz / m).
Proof.
  intros [x y z]. unfold outcome, exec, Point.normalize. unfold_M.
  destruct (Point.magnitude _) as [m|e]; simpl; [|done].
  unfold PyNum.div_float, result_bind.
  destruct (PyNum.as_float x) as [fx|]; simpl; [|done].
  destruct (PrimFloat.eqb m 0) eqn:Hm; simpl; [done|].
  destruct (PyNum.as_float y) as [fy|]; simpl; [|done].
  destruct (PyNum.as_float z) as [fz|]; simpl; [|done].
  intros _. by exists m, fx, fy, fz.
Qed.

(** [Point(1, 2.0, 2)] has magnitude 3. *)
Lemma normalize_divides_all_by_one_magnitude_witness :
  ∃ m fx fy fz,
    Point.magnitude (Point.__init__ (PyInt 1) (PyFloat 2) (PyInt 2)) = Ok m ∧
    PrimFloat.eqb m 0 = false ∧
    PyNum.as_float (PyInt 1) = Ok fx ∧
    PyNum.as_float (PyFloat 2) = Ok fy ∧
    PyNum.as_float (PyInt 2) = Ok fz ∧
    exec Point.normalize (Point.__init__ (PyInt 1) (PyFloat 2) (PyInt 2)) =
      Point.of_floats (fx / m) (fy / m) (fz / m).
Proof.
  apply (normalize_divides_all_by_one_magnitude
           (Point.__init__ (PyInt 1) (PyFloat 2) (PyInt 2))).
  vm_compute. reflexivity.
Defined.

(** ** Joint labels *)

Lemma to_int_not_nil (n : Z) :
  Z.to_int n ≠ Decimal.Pos Decimal.Nil ∧ Z.to_int n ≠ Decimal.Neg Decimal.Nil.
Proof.
  pose proof (DecimalZ.of_to n) as Hof.
  split; intros Hn; rewrite Hn in Hof; simpl in Hof; subst n; discriminate.
Qed.

(** ** Assembling a frame *)

Lemma joint_effect_no_frame l u x y z s :
  starts_new_frame l u s = false →
  joint_effect l u x y z s =
    OSCeleton.set__users
      <[u := Skeleton.mk (Skeleton.id (assembling u s))
               (<[OSCeleton.str l := joint_point (OSCeleton.realWorld s) x y z]>
                  (Skeleton.joints (assembling u s)))
               (Skeleton.orient (assembling u s))]> s.
Proof. unfold joint_effect. by intros ->. Qed.

Lemma assembling_insert u sk (s : OSCeleton.t) :
  assembling u (OSCeleton.set__users <[u := sk]> s) = sk.
Proof. unfold assembling; simpl. by rewrite lookup_insert_eq. Qed.

(** X1. A [/joint] message whose label is not yet a joint of the skeleton
    being assembled for [u] returns without promoting: it binds the label
    to its point in that skeleton (created when [u] had none), keeps the
    other joints and the orientations, and leaves [users], [frames],
    [lostUsers], [realWorld] and the other users as they were. *)
Theorem joint_adds_new_label : ∀ s l u x y z,
  (∀ skel, OSCeleton._users s !! u = Some skel →
           Skeleton.joints skel !! OSCeleton.str l = None) →
  let s' := exec (OSCeleton.joint_callback l u x y z) s in
  let skel := default (Skeleton.__init__ u) (OSCeleton._users s !! u) in
  outcome (OSCeleton.joint_callback l u x y z) s = Ok tt ∧
  OSCeleton._users s' !! u =
    Some (Skeleton.mk (Skeleton.id skel)
            (<[OSCeleton.str l := joint_point (OSCeleton.realWorld s) x y z]>
               (Skeleton.joints skel))
            (Skeleton.orient skel)) ∧
  (∀ v, v ≠ u → OSCeleton._users s' !! v = OSCeleton._users s !! v) ∧
  OSCeleton.users s' = OSCeleton.users s ∧
  OSCeleton.frames s' = OSCeleton.frames s ∧
  OSCeleton.lostUsers s' = OSCeleton.lostUsers s ∧
  OSCeleton.realWorld s' = OSCeleton.realWorld s.
Proof.
  intros s l u x y z Hnew s' skel. subst s' skel.
  unfold outcome. rewrite exec_joint_callback, joint_callback_run; simpl.
  assert (Hno : starts_new_frame l u s = false).
  { unfold starts_new_frame, assembling. apply has_key_false.
    destruct (OSCeleton._users s !! u) as [skel|] eqn:Hu; simpl; [by apply Hnew|done]. }
  rewrite joint_effect_no_frame by done. unfold assembling; simpl.
  rewrite lookup_insert_eq. repeat split; try done.
  intros v Hv. by rewrite lookup_insert_ne.
Qed.

(** The neck of user 1, whose head is known. *)
Lemma joint_adds_new_label_witness :
  OSCeleton.frames
    (exec (OSCeleton.joint_callback (LStr "neck") 1 (PyInt 0) (PyInt 0) (PyInt 0))
       one_joint)
  = OSCeleton.frames one_joint.
Proof.
  refine (proj1 (proj2 (proj2 (proj2 (proj2
    (joint_adds_new_label one_joint (LStr "neck") 1%Z (PyInt 0) (PyInt 0)
       (PyInt 0) _)))))).
  intros skel Hskel. vm_compute in Hskel. injection Hskel as <-.
  vm_compute. reflexivity.
Defined.

Lemma joint_calls_accumulate u ms : ∀ s,
  NoDup ((λ m, OSCeleton.str m.1) <$> ms) →
  (∀ m, m ∈ ms →
        Skeleton.joints (assembling u s) !! OSCeleton.str m.1 = None) →
  Skeleton.joints (assembling u (run (joint_calls u ms) s)) =
    stored_joints (OSCeleton.realWorld s) ms ∪ Skeleton.joints (assembling u s) ∧
  Skeleton.orient (assembling u (run (joint_calls u ms) s)) =
    Skeleton.orient (assembling u s) ∧
  OSCeleton.users (run (joint_calls u ms) s) = OSCeleton.users s ∧
  OSCeleton.frames (run (joint_calls u ms) s) = OSCeleton.frames s ∧
  OSCeleton.realWorld (run (joint_calls u ms) s) = OSCeleton.realWorld s.
Proof.
  induction ms as [|[l p] ms IH]; intros s Hnd Hnew.
  { unfold stored_joints; simpl. by rewrite (left_id_L ∅ (∪)). }
  rewrite fmap_cons, NoDup_cons in Hnd. destruct Hnd as [Hl Hnd].
  unfold joint_calls. rewrite fmap_cons, run_cons, exec_do_call. simpl.
  fold (joint_calls u ms).
  assert (Hno : starts_new_frame l u s = false).
  { apply has_key_false, (Hnew (l, p)). by left. }
  rewrite joint_effect_no_frame by done.
  set (s1 := OSCeleton.set__users _ s).
  destruct (IH s1 Hnd) as (Hj & Ho & Hu & Hf & Hr).
  { intros m Hm. unfold s1. rewrite assembling_insert; simpl.
    rewrite lookup_insert_ne.
    - apply Hnew. by right.
    - intros Heq. apply Hl. apply list_elem_of_fmap. by exists m. }
  rewrite Hj, Ho, Hu, Hf, Hr. unfold s1. rewrite assembling_insert; simpl.
  repeat split; try done.
  unfold stored_joints. rewrite fmap_cons, list_to_map_cons; simpl.
  rewrite <- insert_union_l. symmetry. apply insert_union_r.
  apply not_elem_of_list_to_map_1. rewrite <- list_fmap_compose. exact Hl.
Qed.

(** X2. A frame in the making: [/joint] messages for user [u] whose labels
    are pairwise different and not yet joints of the skeleton being
    assembled add their points to it, and change neither the
    orientations, nor [users], nor [frames]. A following message for a
    label that is then a joint of that skeleton promotes exactly these
    joints: the old ones and one per message. *)
Theorem frame_of_distinct_joints : ∀ u ms s,
  NoDup ((λ m, OSCeleton.str m.1) <$> ms) →
  (∀ m skel, m ∈ ms → OSCeleton._users s !! u = Some skel →
             Skeleton.joints skel !! OSCeleton.str m.1 = None) →
  let before := default (Skeleton.__init__ u) (OSCeleton._users s !! u) in
  let s' := run (joint_calls u ms) s in
  let after := default (Skeleton.__init__ u) (OSCeleton._users s' !! u) in
  Skeleton.joints after =
    stored_joints (OSCeleton.realWorld s) ms ∪ Skeleton.joints before ∧
  Skeleton.orient after = Skeleton.orient before ∧
  OSCeleton.users s' = OSCeleton.users s ∧
  OSCeleton.frames s' = OSCeleton.frames s ∧
  ∀ l x y z,
    is_Some (Skeleton.joints after !! OSCeleton.str l) →
    let s'' := exec (OSCeleton.joint_callback l u x y z) s' in
    OSCeleton.frames s'' = (OSCeleton.frames s + 1)%Z ∧
    ∃ done, OSCeleton.users s'' !! u = Some done ∧
            Skeleton.joints done =
              stored_joints (OSCeleton.realWorld s) ms ∪ Skeleton.joints before ∧
            Skeleton.orient done = Skeleton.orient before.
Proof.
  intros u ms s Hnd Hnew before s' after.
  destruct (joint_calls_accumulate u ms s Hnd) as (Hj & Ho & Hu & Hf & Hr).
  { intros m Hm. unfold assembling.
    destruct (OSCeleton._users s !! u) as [skel|] eqn:Hskel; simpl; [|done].
    by apply (Hnew m). }
  fold s' in Hj, Ho, Hu, Hf, Hr. unfold assembling in Hj, Ho.
  fold before in Hj, Ho. fold after in Hj, Ho.
  do 4 (split; [done|]).
  intros l x y z Hl s''. subst s''.
  destruct (OSCeleton._users s' !! u) as [skel|] eqn:Hskel;
    [|by destruct Hl as [? Hl]].
  destruct (promotion l u x y z s' skel Hskel Hl)
    as (_ & (done & Hd & _ & Hdj & Hdo) & _ & Hf' & _).
  split; [by rewrite Hf', Hf|].
  exists done. split; [done|]. subst after; simpl in *. split; congruence.
Qed.

(** Head, neck and torso of user 2, then the head again. *)
Lemma frame_of_distinct_joints_witness :
  OSCeleton.frames
    (exec (OSCeleton.joint_callback (LStr "head") 2 (PyInt 0) (PyInt 0) (PyInt 0))
       (run (joint_calls 2 [(LStr "head", Point.of_ints 1 2 3);
                            (LStr "neck", Point.of_ints 4 5 6);
                            (LInt 3, Point.of_ints 7 8 9)])
          one_joint))
  = (OSCeleton.frames one_joint + 1)%Z.
Proof.
  refine (proj1 (proj2 (proj2 (proj2 (proj2
    (frame_of_distinct_joints 2%Z
       [(LStr "head", Point.of_ints 1 2 3);
        (LStr "neck", Point.of_ints 4 5 6);
        (LInt 3, Point.of_ints 7 8 9)] one_joint _ _))))
    (LStr "head") (PyInt 0) (PyInt 0) (PyInt 0) _)).
  - vm_compute. repeat constructor; intros Hin;
      repeat (apply elem_of_cons in Hin as [Hin|Hin]; [discriminate|]);
      by apply elem_of_nil in Hin.
  - intros m skel _ Hskel. vm_compute in Hskel. discriminate.
  - vm_compute. eexists. reflexivity.
Defined.

(** ** Users that come and go *)

(** X3. Whatever was being assembled for [u], after a [/lost_user] message
    for [u] a [/joint] message for [u] returns without promoting and
    leaves, for [u], a skeleton with identifier [u] whose only joint is
    the one of this message and that has no orientation. *)
Theorem lost_user_then_joint_starts_afresh : ∀ s l u x y z,
  let s1 := exec (OSCeleton.lost_user_callback u) s in
  let s2 := exec (OSCeleton.joint_callback l u x y z) s1 in
  outcome (OSCeleton.joint_callback l u x y z) s1 = Ok tt ∧
  OSCeleton._users s2 !! u =
    Some (Skeleton.mk u
            {[OSCeleton.str l := joint_point (OSCeleton.realWorld s) x y z]} ∅) ∧
  OSCeleton.frames s2 = OSCeleton.frames s ∧
  OSCeleton.users s2 = OSCeleton.users s1.
Proof.
  intros s l u x y z s1 s2. subst s1 s2. unfold outcome, exec.
  rewrite lost_user_callback_run; simpl. rewrite joint_callback_run; simpl.
  assert (Hgone : OSCeleton._users (lost_user_effect u s) !! u = None).
  { unfold lost_user_effect.
    destruct (OSCeleton._users s !! u) eqn:Hu; simpl; [|done].
    apply lookup_delete_eq. }
  assert (Hno : starts_new_frame l u (lost_user_effect u s) = false).
  { unfold starts_new_frame, assembling. by rewrite Hgone. }
  rewrite joint_effect_no_frame by done. unfold assembling. rewrite Hgone; simpl.
  rewrite lookup_insert_eq, insert_empty.
  split; [done|]. unfold lost_user_effect.
  by destruct (OSCeleton._users s !! u).
Qed.

Lemma assembling_id u s :
  well_keyed (OSCeleton._users s) → Skeleton.id (assembling u s) = u.
Proof.
  intros Hk. unfold assembling.
  destruct (OSCeleton._users s !! u) as [sk|] eqn:Hu; simpl; [|done].
  by apply Hk.
Qed.

Lemma well_keyed_insert (d : gmap Z Skeleton.t) k sk :
  well_keyed d → Skeleton.id sk = k → well_keyed (<[k := sk]> d).
Proof.
  intros Hd Hsk k' sk' [[<- <-]|[_ Hk]]%lookup_insert_Some; [done|].
  by apply Hd.
Qed.

Lemma well_keyed_delete (d : gmap Z Skeleton.t) k :
  well_keyed d → well_keyed (delete k d).
Proof. intros Hd k' sk' [_ Hk]%lookup_delete_Some. by apply Hd. Qed.

Lemma well_keyed_call c s :
  well_keyed (OSCeleton.users s) ∧ well_keyed (OSCeleton._users s) →
  well_keyed (OSCeleton.users (exec (do_call c) s)) ∧
  well_keyed (OSCeleton._users (exec (do_call c) s)).
Proof.
  intros [Hu Hu']. rewrite exec_do_call.
  destruct c as [v|v|v|l v x y z|l v rest| | | |b]; simpl; try done.
  - split; [done|]. by apply well_keyed_insert.
  - unfold lost_user_effect. destruct (OSCeleton._users s !! v); simpl; [|done].
    split; by apply well_keyed_delete.
  - unfold joint_effect. destruct (starts_new_frame l v s); simpl.
    + split; apply well_keyed_insert; simpl; try done.
      * destruct (OSCeleton.users s !! v) as [sk|] eqn:Hv; simpl; [|done].
        by apply Hu.
      * by apply assembling_id.
    + split; [done|]. apply well_keyed_insert; [done|]. by apply assembling_id.
  - split; [done|]. apply well_keyed_insert; [done|]. by apply assembling_id.
Qed.

Lemma well_keyed_run cs : ∀ s,
  well_keyed (OSCeleton.users s) ∧ well_keyed (OSCeleton._users s) →
  well_keyed (OSCeleton.users (run cs s)) ∧
  well_keyed (OSCeleton._users (run cs s)).
Proof.
  induction cs as [|c cs IH]; intros s Hs; [done|].
  rewrite run_cons. by apply IH, well_keyed_call.
Qed.

Lemma well_keyed_initial :
  well_keyed (OSCeleton.users OSCeleton.initial) ∧
  well_keyed (OSCeleton._users OSCeleton.initial).
Proof. split; intros k sk Hk; simpl in Hk; by rewrite lookup_empty in Hk. Qed.

Lemma well_keyed_ids (d : gmap Z Skeleton.t) :
  well_keyed d → Skeleton.id <$> values d = keys d.
Proof.
  intros Hd. unfold values, keys.
  assert (Hl : ∀ k sk, (k, sk) ∈ map_to_list d → Skeleton.id sk = k).
  { intros k sk Hk%elem_of_map_to_list. by apply Hd. }
  induction (map_to_list d) as [|[k sk] kvs IH]; [done|].
  rewrite !fmap_cons; simpl. f_equal.
  - apply Hl. by left.
  - apply IH. intros k' sk' Hk'. apply Hl. by right.
Qed.

(** X5. In every state that a sequence of calls reaches from the initial
    state, every skeleton, completed or being assembled, carries the
    number of the user it is stored for; and the list that
    [get_new_skeletons] returns holds at most one skeleton per user. *)
Theorem skeleton_ids_match_users : ∀ cs,
  let s := run cs OSCeleton.initial in
  (∀ u sk, OSCeleton.users s !! u = Some sk → Skeleton.id sk = u) ∧
  (∀ u sk, OSCeleton._users s !! u = Some sk → Skeleton.id sk = u) ∧
  ∃ sks, outcome OSCeleton.get_new_skeletons s = Ok sks ∧
         NoDup (Skeleton.id <$> sks) ∧
         ∀ sk, sk ∈ sks → OSCeleton.users s !! Skeleton.id sk = Some sk.
Proof.
  intros cs s.
  destruct (well_keyed_run cs _ well_keyed_initial) as [Hu Hu'].
  fold s in Hu, Hu'. split; [exact Hu|]. split; [exact Hu'|].
  eexists. split; [reflexivity|]. split.
  - rewrite well_keyed_ids by done. apply NoDup_fst_map_to_list.
  - intros sk (u & Hsk)%elem_of_values. by rewrite (Hu u sk Hsk).
Qed.

(** X4. In every state that a sequence of calls reaches from the initial
    state, a [/lost_user] message for [u] leaves no skeleton of [u]
    behind, neither being assembled nor completed: the next
    [get_new_skeletons] returns none with identifier [u]. *)
Theorem lost_user_forgets_user : ∀ cs u,
  let s' := exec (OSCeleton.lost_user_callback u) (run cs OSCeleton.initial) in
  OSCeleton._users s' !! u = None ∧
  OSCeleton.users s' !! u = None ∧
  ∃ sks, outcome OSCeleton.get_new_skeletons s' = Ok sks ∧
         ∀ sk, sk ∈ sks → Skeleton.id sk ≠ u.
Proof.
  intros cs u s'.
  pose proof (completed_subset_run cs OSCeleton.initial) as Hsub.
  destruct (well_keyed_run cs _ well_keyed_initial) as [Hk _].
  assert (Hs' : s' = lost_user_effect u (run cs OSCeleton.initial)).
  { unfold s', exec. by rewrite lost_user_callback_run. }
  assert (Hgone' : OSCeleton._users s' !! u = None).
  { rewrite Hs'. unfold lost_user_effect.
    destruct (OSCeleton._users (run cs OSCeleton.initial) !! u) eqn:Hu; simpl;
      [apply lookup_delete_eq|done]. }
  assert (Hgone : OSCeleton.users s' !! u = None).
  { rewrite Hs'. unfold lost_user_effect.
    destruct (OSCeleton._users (run cs OSCeleton.initial) !! u) eqn:Hu; simpl;
      [apply lookup_delete_eq|].
    apply not_elem_of_dom. intros Hin%Hsub; [|done].
    apply elem_of_dom in Hin as [? Hin]. congruence. }
  split; [done|]. split; [done|].
  eexists. split; [reflexivity|].
  intros sk (v & Hsk)%elem_of_values Hid.
  assert (Hv : Skeleton.id sk = v).
  { apply Hk. rewrite Hs' in Hsk. unfold lost_user_effect in Hsk.
    destruct (OSCeleton._users (run cs OSCeleton.initial) !! u); simpl in Hsk;
      [by apply lookup_delete_Some in Hsk as [_ Hsk]|done]. }
  congruence.
Qed.

Lemma lostUsers_call c s :
  OSCeleton.lostUsers (exec (do_call c) s) = OSCeleton.lostUsers s ∨
  ∃ u, c = lost_user u ∧ is_Some (OSCeleton._users s !! u) ∧
       OSCeleton.lostUsers (exec (do_call c) s) = OSCeleton.lostUsers s ++ [u].
Proof.
  rewrite exec_do_call.
  destruct c as [v|v|v|l v x y z|l v rest| | | |b]; simpl; auto.
  - unfold lost_user_effect.
    destruct (OSCeleton._users s !! v) eqn:Hv; simpl; [|by left].
    right. exists v. by rewrite Hv.
  - unfold joint_effect. destruct (starts_new_frame l v s); auto.
Qed.

(** X6. [lostUsers] only grows, and only by [/lost_user] messages: after
    any sequence of calls the list starts with what it was, and every
    user it holds was in it before or is the user of a [/lost_user]
    message of the sequence. Nothing ever removes a user from it. *)
Theorem lostUsers_only_grows : ∀ cs s,
  OSCeleton.lostUsers s `prefix_of` OSCeleton.lostUsers (run cs s) ∧
  ∀ u, u ∈ OSCeleton.lostUsers (run cs s) →
       u ∈ OSCeleton.lostUsers s ∨ lost_user u ∈ cs.
Proof.
  induction cs as [|c cs IH]; intros s; [by split; auto|].
  rewrite run_cons. destruct (IH (exec (do_call c) s)) as [Hp Hin].
  destruct (lostUsers_call c s) as [Heq|(v & -> & _ & Heq)]; rewrite Heq in *.
  - split; [done|]. intros u [Hu|Hu]%Hin; [by left|]. right. by right.
  - split.
    + etrans; [|exact Hp]. by apply prefix_app_r.
    + intros u [Hu|Hu]%Hin.
      * apply elem_of_app in Hu as [Hu|Hu]; [by left|].
        apply list_elem_of_singleton in Hu as ->. right. by left.
      * right. by right.
Qed.

(** ** Exceptions, user lists and orientation rows *)

(** X7. No exception leaves [joint_callback] or [orient_callback], in any
    state and for any label, user and numbers: neither a [KeyError] of the
    dictionaries, the user being created before it is looked up, nor an
    [OverflowError] of the conversion to millimetres, whose mixed
    arithmetic converts only the constants 1280, 2560, 960 and 1920. *)
Theorem joint_and_orient_never_raise :
  ∀ s (l : OSCeleton.label) (u : Z) (x y z : PyNum.t) (rest : list PyNum.t),
  outcome (OSCeleton.joint_callback l u x y z) s = Ok tt ∧
  outcome (OSCeleton.orient_callback l u rest) s = Ok tt ∧
  (∃ x' y' z', OSCeleton.to_mm 1280 2560 x = Ok x' ∧
               OSCeleton.to_mm 960 1920 y = Ok y' ∧
               PyNum.mul (PyNum.neg z) (PyInt 1280) = Ok z').
Proof.
  intros s l u x y z rest. unfold outcome.
  rewrite joint_callback_run, orient_callback_run.
  split; [done|]. split; [done|].
  exists (mm_x x), (mm_y y), (mm_z z).
  by rewrite to_mm_x, to_mm_y, to_mm_z.
Qed.

(** X8. [get_users] returns the users being assembled, each exactly once,
    and changes nothing. A user is in the list right after a
    [/new_user], [/joint] or [/orient] message for it, and is not in the
    list right after a [/lost_user] message for it. *)
Theorem get_users_lists_assembling_users : ∀ s u,
  (∃ us, outcome OSCeleton.get_users s = Ok us ∧ NoDup us ∧
         ∀ v, v ∈ us ↔ is_Some (OSCeleton._users s !! v)) ∧
  exec OSCeleton.get_users s = s ∧
  (∀ c, c = new_user u ∨ (∃ l x y z, c = joint l u x y z)
        ∨ (∃ l rest, c = orient l u rest) →
     ∃ us, outcome OSCeleton.get_users (exec (do_call c) s) = Ok us ∧ u ∈ us) ∧
  (∃ us, outcome OSCeleton.get_users (exec (do_call (lost_user u)) s) = Ok us ∧
         u ∉ us).
Proof.
  intros s u. split; [|split; [done|split]].
  - eexists. split; [reflexivity|]. split.
    + apply NoDup_fst_map_to_list.
    + intros v. apply elem_of_keys.
  - intros c Hc. eexists. split; [reflexivity|].
    apply elem_of_keys. rewrite exec_do_call.
    destruct Hc as [->|[(l & x & y & z & ->)|(l & rest & ->)]]; simpl.
    + rewrite lookup_insert_eq. by eexists.
    + destruct (joint_effect_stored l u x y z s) as (skel & -> & _). by eexists.
    + rewrite lookup_insert_eq. by eexists.
  - eexists. split; [reflexivity|].
    rewrite elem_of_keys, exec_do_call; simpl. unfold lost_user_effect.
    destruct (OSCeleton._users s !! u) eqn:Hu; simpl.
    + rewrite lookup_delete_eq. by intros [? ?].
    + rewrite Hu. by intros [? ?].
Qed.

(** After the first joint of user 9, user 9 is listed. *)
Lemma get_users_lists_assembling_users_witness :
  ∃ us,
    outcome OSCeleton.get_users
      (exec (do_call (joint (LInt 1) 9 (PyInt 0) (PyInt 0) (PyInt 0))) one_joint)
    = Ok us ∧ 9%Z ∈ us.
Proof.
  apply (proj1 (proj2 (proj2 (get_users_lists_assembling_users one_joint 9%Z)))).
  right. left. by exists (LInt 1), (PyInt 0), (PyInt 0), (PyInt 0).
Defined.

(** X9. [orient_callback] takes any number of matrix values and never
    raises: it stores three rows, [args[2:5]], [args[5:8]] and [args[8:]],
    which together are all the values in their order. The first two rows
    have at most three values, fewer only when the values run out; the
    third row takes all the values from the seventh on. *)
Theorem orient_rows_partition_values :
  ∀ s (l : OSCeleton.label) (u : Z) (rest : list PyNum.t),
  let s' := exec (OSCeleton.orient_callback l u rest) s in
  outcome (OSCeleton.orient_callback l u rest) s = Ok tt ∧
  ∃ skel r1 r2 r3,
    OSCeleton._users s' !! u = Some skel ∧
    Skeleton.orient skel !! OSCeleton.str l = Some [r1; r2; r3] ∧
    r1 ++ r2 ++ r3 = rest ∧
    length r1 = (length rest `min` 3)%nat ∧
    length r2 = ((length rest - 3) `min` 3)%nat ∧
    length r3 = (length rest - 6)%nat.
Proof.
  intros s l u rest s'. subst s'. unfold outcome, exec.
  rewrite orient_callback_run; simpl. split; [done|].
  rewrite lookup_insert_eq.
  eexists _, (take 3 rest), (take 3 (drop 3 rest)), (drop 6 rest).
  split; [reflexivity|]. simpl. rewrite lookup_insert_eq.
  split; [done|]. split.
  - change 6%nat with (3 + 3)%nat. rewrite <- drop_drop.
    by rewrite (take_drop 3 (drop 3 rest)), take_drop.
  - rewrite !length_take, !length_drop. lia.
Qed.

(** ** Users do not interfere *)

(** X18. A message about a user changes nothing of another user: after a
    [/new_user], [/lost_user], [/new_skel], [/joint] or [/orient] message
    for [v], the skeleton being assembled for any other user [u] and its
    completed skeleton are what they were. *)
Theorem messages_leave_other_users : ∀ c s u v,
  call_user c = Some v → u ≠ v →
  OSCeleton._users (exec (do_call c) s) !! u = OSCeleton._users s !! u ∧
  OSCeleton.users (exec (do_call c) s) !! u = OSCeleton.users s !! u.
Proof.
  intros c s u v Hc Hne. rewrite exec_do_call.
  destruct c as [w|w|w|l w x y z|l w rest| | | |b]; simpl in *;
    try discriminate; injection Hc as ->; try done.
  - by rewrite lookup_insert_ne.
  - unfold lost_user_effect. destruct (OSCeleton._users s !! v); simpl; [|done].
    by rewrite !lookup_delete_ne.
  - unfold joint_effect. destruct (starts_new_frame l v s); simpl;
      by rewrite ?lookup_insert_ne.
  - by rewrite lookup_insert_ne.
Qed.

(** A repeated head of user 1 promotes for user 1 and leaves user 2
    alone. *)
Lemma messages_leave_other_users_witness :
  OSCeleton._users
    (exec (do_call (joint (LStr "head") 1 (PyInt 0) (PyInt 0) (PyInt 0))) one_joint)
    !! 2%Z = OSCeleton._users one_joint !! 2%Z.
Proof.
  refine (proj1 (messages_leave_other_users
                   (joint (LStr "head") 1 (PyInt 0) (PyInt 0) (PyInt 0))
                   one_joint 2%Z 1%Z _ _)).
  - reflexivity.
  - discriminate.
Defined.

(** ** Frames counted and frames fetched *)

Lemma size_users_call c s :
  size (OSCeleton.users (exec (do_call c) s)) ≤
    size (OSCeleton.users s) + (if promotes c s then 1 else 0).
Proof.
  rewrite exec_do_call.
  destruct c as [v|v|v|l v x y z|l v rest| | | |b]; simpl; try lia.
  - unfold lost_user_effect. destruct (OSCeleton._users s !! v); simpl; [|lia].
    rewrite map_size_delete.
    destruct (OSCeleton.users s !! v); unfold id; lia.
  - unfold joint_effect. destruct (starts_new_frame l v s); simpl; [|lia].
    rewrite map_size_insert.
    destruct (OSCeleton.users s !! v); unfold id; lia.
  - rewrite map_size_empty. lia.
Qed.

Lemma size_users_run cs : ∀ s,
  size (OSCeleton.users (run cs s)) ≤ size (OSCeleton.users s) + promotions cs s.
Proof.
  induction cs as [|c cs IH]; intros s; [simpl; lia|].
  rewrite run_cons. cbn [promotions].
  pose proof (IH (exec (do_call c) s)). pose proof (size_users_call c s). lia.
Qed.

(** X19. Between two calls of [get_new_skeletons], [frames] grows by at
    least the number of skeletons that the second call returns: a frame
    that was promoted is counted, also when a later frame of the same
    user or a [/lost_user] message takes it away before it is fetched. *)
Theorem fetched_at_most_frames : ∀ s cs,
  let s1 := exec OSCeleton.get_new_skeletons s in
  let s2 := run cs s1 in
  ∃ sks, outcome OSCeleton.get_new_skeletons s2 = Ok sks ∧
         (Z.of_nat (length sks) ≤ OSCeleton.frames s2 - OSCeleton.frames s1)%Z.
Proof.
  intros s cs s1 s2. eexists. split; [reflexivity|].
  unfold values. rewrite length_fmap, length_map_to_list.
  unfold s2. rewrite frames_run.
  pose proof (size_users_run cs s1) as Hsz.
  replace (size (OSCeleton.users s1)) with 0 in Hsz; [lia|].
  unfold s1, exec; simpl. by rewrite map_size_empty.
Qed.

(** ** Integer labels *)

Lemma str_LInt_inj (m n : Z) :
  OSCeleton.str (LInt m) = OSCeleton.str (LInt n) → m = n.
Proof.
  simpl. intros Heq. apply DecimalZ.to_int_inj.
  destruct (to_int_not_nil m) as [Hm1 Hm2], (to_int_not_nil n) as [Hn1 Hn2].
  pose proof (NilZero.isi _ Hm1 Hm2) as Him.
  pose proof (NilZero.isi _ Hn1 Hn2) as Hin.
  rewrite Heq in Him. congruence.
Qed.

(** X16. Integer joint labels are told apart: [str] gives two integers the
    same key only when they are the same integer. So a [/joint] message
    for an integer label [m] that is not yet a joint of the user does not
    promote after a [/joint] message for another integer label [n]:
    [frames] stays as the first message left it. *)
Theorem integer_labels_do_not_collide :
  (∀ m n : Z, OSCeleton.str (LInt m) = OSCeleton.str (LInt n) ↔ m = n) ∧
  (∀ s u (m n : Z) x y z x' y' z',
     m ≠ n →
     (∀ skel, OSCeleton._users s !! u = Some skel →
              Skeleton.joints skel !! OSCeleton.str (LInt m) = None) →
     let s1 := exec (OSCeleton.joint_callback (LInt n) u x y z) s in
     let s2 := exec (OSCeleton.joint_callback (LInt m) u x' y' z') s1 in
     OSCeleton.frames s2 = OSCeleton.frames s1).
Proof.
  split.
  - intros m n. split; [apply str_LInt_inj|by intros ->].
  - intros s u m n x y z x' y' z' Hne Hnew s1 s2. subst s1 s2.
    rewrite !exec_joint_callback.
    assert (Hkey : OSCeleton.str (LInt n) ≠ OSCeleton.str (LInt m)).
    { intros Heq%str_LInt_inj. congruence. }
    assert (Hno : starts_new_frame (LInt m) u
                    (joint_effect (LInt n) u x y z s) = false).
    { unfold starts_new_frame, assembling. apply has_key_false.
      unfold joint_effect. destruct (starts_new_frame (LInt n) u s); simpl;
        rewrite lookup_insert_eq; simpl.
      - by apply lookup_singleton_ne.
      - rewrite lookup_insert_ne by done. unfold assembling.
        destruct (OSCeleton._users s !! u) as [skel|] eqn:Hu; simpl;
          [by apply Hnew|done]. }
    by rewrite (joint_effect_no_frame _ _ _ _ _ _ Hno).
Qed.

(** Joint 2 of user 1 after joint 1 of user 1. *)
Lemma integer_labels_do_not_collide_witness :
  OSCeleton.frames
    (exec (OSCeleton.joint_callback (LInt 2) 1 (PyInt 0) (PyInt 0) (PyInt 0))
       (exec (OSCeleton.joint_callback (LInt 1) 1 (PyInt 0) (PyInt 0) (PyInt 0))
          one_joint))
  = OSCeleton.frames
      (exec (OSCeleton.joint_callback (LInt 1) 1 (PyInt 0) (PyInt 0) (PyInt 0))
         one_joint).
Proof.
  apply (proj2 integer_labels_do_not_collide one_joint 1%Z 2%Z 1%Z).
  - discriminate.
  - intros skel Hskel. vm_compute in Hskel. injection Hskel as <-.
    vm_compute. reflexivity.
Defined.
